(** * Face verification and duplicate-enrollment checks of iris-vote-secure-system

    Shallow embedding of
    - [src/src/utils/faceVerification.ts], first version of the file
      (lines 1-217): [calculateStrictVotingFaceSimilarity],
      [calculateMaximumSecurityFaceSimilarity] (which delegates to the strict
      scorer there) and [verifyFaceMatch];
    - [src/src/utils/duplicateDetection.ts]: [isFaceAlreadyRegistered];
    - [src/iris-vote-secure-system-main/src/services/authenticationService.ts]:
      [verifyVoterService].

    JavaScript strings are modelled as Rocq [string]s (the data URLs are
    ASCII) and JavaScript numbers as [JsNum.t]: exact rationals extended with
    NaN and the two infinities (signed zero and rounding are not modelled).
    [console.log] calls are dropped. *)

From Stdlib Require Import Bool Arith ZArith QArith Qabs Lqa Qreduction Lia List.
From Stdlib Require Import Strings.String Strings.Ascii.
Import ListNotations.
Set Warnings "-abstract-large-number".

Open Scope string_scope.
Open Scope nat_scope.

(** ** JavaScript numbers *)

Module JsNum.

Inductive t : Type :=
| Fin (q : Q)
| NaN
| Inf (pos : bool).

Definition of_nat (n : nat) : t := Fin (inject_Z (Z.of_nat n)).
Definition of_Z (z : Z) : t := Fin (inject_Z z).
Definition lit (n : Z) (d : positive) : t := Fin (Qmake n d).

Definition add (a b : t) : t :=
  match a, b with
  | NaN, _ | _, NaN => NaN
  | Inf p, Inf q => if Bool.eqb p q then Inf p else NaN
  | Inf p, Fin _ | Fin _, Inf p => Inf p
  | Fin x, Fin y => Fin (Qred (x + y))
  end.

Definition neg (a : t) : t :=
  match a with
  | Fin x => Fin (- x)
  | NaN => NaN
  | Inf p => Inf (negb p)
  end.

Definition sub (a b : t) : t := add a (neg b).

Definition qlt (x y : Q) : bool := negb (Qle_bool y x).
Definition qpos (x : Q) : bool := qlt 0 x.
Definition qzero (x : Q) : bool := Qeq_bool x 0.

Definition mul (a b : t) : t :=
  match a, b with
  | NaN, _ | _, NaN => NaN
  | Inf p, Inf q => Inf (Bool.eqb p q)
  | Inf p, Fin y | Fin y, Inf p =>
      if qzero y then NaN else Inf (Bool.eqb p (qpos y))
  | Fin x, Fin y => Fin (Qred (x * y))
  end.

(** Division; [x / 0] is NaN for [x = 0] and an infinity of the sign of
    [x] otherwise (the zero divisor is taken as [+0]). *)
Definition div (a b : t) : t :=
  match a, b with
  | NaN, _ | _, NaN => NaN
  | Inf _, Inf _ => NaN
  | Fin _, Inf _ => Fin 0
  | Inf p, Fin y => if qzero y then Inf p else Inf (Bool.eqb p (qpos y))
  | Fin x, Fin y =>
      if qzero y then (if qzero x then NaN else Inf (qpos x))
      else Fin (Qred (x / y))
  end.

Definition abs (a : t) : t :=
  match a with
  | Fin x => Fin (Qabs x)
  | NaN => NaN
  | Inf _ => Inf true
  end.

(** [a < b]; false as soon as one side is NaN. *)
Definition lt (a b : t) : bool :=
  match a, b with
  | NaN, _ | _, NaN => false
  | Fin x, Fin y => qlt x y
  | Inf p, Inf q => negb p && q
  | Inf p, Fin _ => negb p
  | Fin _, Inf q => q
  end.

(** [a >= b]; false as soon as one side is NaN. *)
Definition ge (a b : t) : bool :=
  match a, b with
  | NaN, _ | _, NaN => false
  | _, _ => negb (lt a b)
  end.

(** [Math.max] and [Math.min] of two arguments. *)
Definition max (a b : t) : t :=
  match a, b with
  | NaN, _ | _, NaN => NaN
  | _, _ => if lt a b then b else a
  end.

Definition min (a b : t) : t :=
  match a, b with
  | NaN, _ | _, NaN => NaN
  | _, _ => if lt b a then b else a
  end.

Definition is_nan (a : t) : bool :=
  match a with NaN => true | _ => false end.

End JsNum.

Declare Scope js_scope.
Delimit Scope js_scope with js.
Infix "+" := JsNum.add : js_scope.
Infix "-" := JsNum.sub : js_scope.
Infix "*" := JsNum.mul : js_scope.
Infix "/" := JsNum.div : js_scope.

(** ** JavaScript string helpers *)

(** [s.startsWith(p)] *)
Definition startsWith (s p : string) : bool := String.prefix p s.

(** [s.indexOf(p)], [None] standing for [-1]. *)
Definition indexOf (s p : string) : option nat := String.index 0 p s.

(** [s.includes(p)] *)
Definition includes (s p : string) : bool :=
  match indexOf s p with Some _ => true | None => false end.

(** [s.substring(a, b)]: both bounds clamped to the length, swapped when
    [a > b]. *)
Definition js_substring (s : string) (a b : nat) : string :=
  let a' := Nat.min a (String.length s) in
  let b' := Nat.min b (String.length s) in
  if a' <=? b' then String.substring a' (b' - a') s
  else String.substring b' (a' - b') s.

(** [s.substring(a)] *)
Definition js_substring_from (s : string) (a : nat) : string :=
  js_substring s a (String.length s).

(** [s[j]]: [None] is [undefined]. *)
Definition char_at (s : string) : option ascii :=
  match s with EmptyString => None | String c _ => Some c end.

Definition opt_ascii_eqb (x y : option ascii) : bool :=
  match x, y with
  | Some a, Some b => Ascii.eqb a b
  | None, None => true
  | _, _ => false
  end.

(** Number of [j < n] with [s1[j] === s2[j]] (the counting loops of the
    scorer). *)
Fixpoint count_matches (n : nat) (s1 s2 : string) : nat :=
  match n with
  | O => O
  | S n' =>
      (if opt_ascii_eqb (char_at s1) (char_at s2) then 1 else 0)
      + count_matches n'
          (match s1 with EmptyString => EmptyString | String _ r => r end)
          (match s2 with EmptyString => EmptyString | String _ r => r end)
  end.

(** [sample.split('').map(c => c.charCodeAt(0))] *)
Fixpoint char_codes (s : string) : list Z :=
  match s with
  | EmptyString => []
  | String c r => Z.of_nat (nat_of_ascii c) :: char_codes r
  end.

(** ** [calculateStrictVotingFaceSimilarity] (faceVerification.ts, 4-181) *)

Module Strict.

Import JsNum.

(** [isValidImage] (lines 16-18). *)
Definition isValidImage (data : string) : bool :=
  startsWith data "data:image/" && includes data "base64,"
  && (10000 <? String.length data).

(** [getBase64] (lines 26-29). *)
Definition getBase64 (dataUrl : string) : string :=
  match indexOf dataUrl "base64," with
  | Some base64Index => js_substring_from dataUrl (base64Index + 7)
  | None => dataUrl
  end.

(** [lengthSimilarity] (lines 37-39). *)
Definition lengthSimilarity (data1 data2 : string) : t :=
  let lengthDiff :=
    abs (sub (of_nat (String.length data1)) (of_nat (String.length data2))) in
  let avgLength :=
    div (add (of_nat (String.length data1)) (of_nat (String.length data2)))
        (of_nat 2) in
  max (lit 5 10) (sub (of_nat 1) (div lengthDiff avgLength)).

(** The [for (let i = 0; i < sections; i++)] loop of [analyzeImagePatterns]
    (lines 54-79); [fuel] is [sections - i], the accumulators are
    [totalSimilarity] and [validSections]. *)
Fixpoint pattern_loop (data1 data2 : string) (sectionSize : nat)
    (fuel i : nat) (totalSimilarity : t) (validSections : nat) : t * nat :=
  match fuel with
  | O => (totalSimilarity, validSections)
  | S fuel' =>
      let start := i * sectionSize in
      let end_ := start + sectionSize in
      if Nat.min (String.length data1) (String.length data2) <=? start
      then (totalSimilarity, validSections)
      else
        let section1 := js_substring data1 start (Nat.min end_ (String.length data1)) in
        let section2 := js_substring data2 start (Nat.min end_ (String.length data2)) in
        let minLength := Nat.min (String.length section1) (String.length section2) in
        let exactMatches := count_matches minLength section1 section2 in
        let sectionSimilarity := div (of_nat exactMatches) (of_nat minLength) in
        pattern_loop data1 data2 sectionSize fuel' (S i)
          (add totalSimilarity sectionSimilarity) (S validSections)
  end.

(** [analyzeImagePatterns] (lines 44-82); [Math.floor] of a quotient of
    naturals is [Nat.div]. *)
Definition analyzeImagePatterns (data1 data2 : string) : t :=
  let sampleSize :=
    Nat.min 15000 (Nat.min (String.length data1) (String.length data2)) in
  let sections := 30 in
  let sectionSize := sampleSize / sections in
  let '(totalSimilarity, validSections) :=
    pattern_loop data1 data2 sectionSize sections 0 (of_nat 0) 0 in
  if 0 <? validSections then div totalSimilarity (of_nat validSections)
  else of_nat 0.

Definition windowSize := 100.
Definition stride := 50.
Definition maxWindows := 40.

(** The window loop of [strictSlidingWindow] (lines 99-116); the test
    [i < maxLength - windowSize] is [i + windowSize < maxLength] over the
    naturals. [fuel] bounds the iterations by [maxWindows]; the test
    [windowCount < maxWindows] is kept as in the source. *)
Fixpoint window_loop (data1 data2 : string) (maxLength : nat)
    (fuel i : nat) (totalScore bestScore : t) (windowCount : nat)
    : t * t * nat :=
  match fuel with
  | O => (totalScore, bestScore, windowCount)
  | S fuel' =>
      if (i + windowSize <? maxLength) && (windowCount <? maxWindows) then
        let window1 := js_substring data1 i (i + windowSize) in
        let window2 := js_substring data2 i (i + windowSize) in
        let exactMatches := count_matches windowSize window1 window2 in
        let windowScore := div (of_nat exactMatches) (of_nat windowSize) in
        window_loop data1 data2 maxLength fuel' (i + stride)
          (add totalScore windowScore) (max bestScore windowScore)
          (S windowCount)
      else (totalScore, bestScore, windowCount)
  end.

(** [strictSlidingWindow] (lines 89-122). *)
Definition strictSlidingWindow (data1 data2 : string) : t :=
  let maxLength := Nat.min (String.length data1) (String.length data2) in
  let '(totalScore, bestScore, windowCount) :=
    window_loop data1 data2 maxLength maxWindows 0 (of_nat 0) (of_nat 0) 0 in
  let avgScore :=
    if 0 <? windowCount then div totalScore (of_nat windowCount)
    else of_nat 0 in
  add (mul avgScore (lit 6 10)) (mul bestScore (lit 4 10)).

(** [getStats] (lines 129-137): mean and variance of the first 20000
    character codes, the sums being [reduce] from [0]. *)
Definition getStats (data : string) : t * t :=
  let sample := js_substring data 0 (Nat.min 20000 (String.length data)) in
  let values := char_codes sample in
  let mean :=
    div (fold_left (fun a b => add a (of_Z b)) values (of_nat 0))
        (of_nat (List.length values)) in
  let variance :=
    div (fold_left (fun a b => add a (mul (sub (of_Z b) mean) (sub (of_Z b) mean)))
           values (of_nat 0))
        (of_nat (List.length values)) in
  (mean, variance).

(** [strictStatisticalFingerprint] (lines 128-149). *)
Definition strictStatisticalFingerprint (data1 data2 : string) : t :=
  let '(mean1, variance1) := getStats data1 in
  let '(mean2, variance2) := getStats data2 in
  let meanDiff := abs (sub mean1 mean2) in
  let meanSim := max (lit 3 10) (sub (of_nat 1) (div meanDiff (max mean1 mean2))) in
  let varDiff := abs (sub variance1 variance2) in
  let varSim :=
    max (lit 3 10) (sub (of_nat 1) (div varDiff (max variance1 variance2))) in
  div (add meanSim varSim) (of_nat 2).

(** The weights of lines 155-160. *)
Definition w_length := lit 15 100.
Definition w_pattern := lit 50 100.
Definition w_slidingWindow := lit 25 100.
Definition w_statistical := lit 10 100.

(** The scorer after its two guards (lines 31-181). *)
Definition composite (registeredFace currentFace : string) : t :=
  let data1 := getBase64 registeredFace in
  let data2 := getBase64 currentFace in
  let lengthSim := lengthSimilarity data1 data2 in
  let patternSimilarity := analyzeImagePatterns data1 data2 in
  let slidingWindowSimilarity := strictSlidingWindow data1 data2 in
  let statSimilarity := strictStatisticalFingerprint data1 data2 in
  add (add (add (mul lengthSim w_length) (mul patternSimilarity w_pattern))
           (mul slidingWindowSimilarity w_slidingWindow))
      (mul statSimilarity w_statistical).

End Strict.

(** [calculateStrictVotingFaceSimilarity] (lines 4-181). *)
Definition calculateStrictVotingFaceSimilarity
    (registeredFace currentFace : string) : JsNum.t :=
  if String.eqb registeredFace currentFace then JsNum.of_nat 1
  else if negb (Strict.isValidImage registeredFace)
          || negb (Strict.isValidImage currentFace)
  then JsNum.of_nat 0
  else Strict.composite registeredFace currentFace.

(** [calculateMaximumSecurityFaceSimilarity] (lines 184-189): it delegates
    to the strict scorer. *)
Definition calculateMaximumSecurityFaceSimilarity (face1 face2 : string)
    : JsNum.t :=
  calculateStrictVotingFaceSimilarity face1 face2.

(** The result object of [verifyFaceMatch]. *)
Record FaceMatchResult := {
  isMatch : bool;
  similarity : JsNum.t;
  distance : JsNum.t
}.

Definition verification_threshold : JsNum.t := JsNum.lit 60 100.

(** [verifyFaceMatch] (lines 192-217). *)
Definition verifyFaceMatch (registeredFace currentFace : string)
    : FaceMatchResult :=
  let sim := calculateStrictVotingFaceSimilarity registeredFace currentFace in
  let dist := JsNum.sub (JsNum.of_nat 1) sim in
  let threshold := verification_threshold in
  {| isMatch := JsNum.ge sim threshold; similarity := sim; distance := dist |}.

(** ** Concrete blobs *)

Fixpoint repeat_str (n : nat) (s : string) : string :=
  match n with
  | O => EmptyString
  | S k => String.append s (repeat_str k s)
  end.

Definition png_prefix : string := "data:image/png;base64,".

(** A payload of 1260 blocks of 8 characters behind the PNG prefix. *)
Definition blob_of_block (block : string) : string :=
  String.append png_prefix (repeat_str 1260 block).

Definition blobN := blob_of_block "ABABABAB".
Definition blob25 := blob_of_block "BAABBABA".
Definition blob50 := blob_of_block "AABBAABB".
Definition blob75 := blob_of_block "BAABABAB".
(** A payload matching [blobN] at 6 of every 16 positions. *)
Definition blob37 := String.append png_prefix (repeat_str 630 "BAABBABAAABBAABB").

(** Two distinct valid blobs with constant payloads of 10000 and 10001
    characters. *)
Definition flatA10000 := String.append png_prefix (repeat_str 10000 "A").
Definition flatA10001 := String.append png_prefix (repeat_str 10001 "A").

(** ** Voters (types/voting: the [Voter] interface) *)

Record Voter := {
  id : string;
  name : string;
  aadhaarNumber : string;
  voterId : string;
  address : string;
  faceData : string;
  irisData : string;
  hasVoted : bool
}.

(** ** [isFaceAlreadyRegistered] (duplicateDetection.ts) *)

(** The [details] field. The two duplicate messages are template strings
    whose numbers are rendered with [toFixed]; they are kept as their
    template and arguments.
    - [DetailsThreshold s n v]: "Face pattern <s>% similar to registered
      voter <n> (ID: <v>). Maximum security threshold: 45%."
    - [DetailsSuspected s sv n v]: "Suspected duplicate registration
      detected. Face pattern <s>% similar with minimal size variation
      (<sv>%) to registered voter <n> (ID: <v>)."
    - [DetailsText msg]: a fixed message. *)
Inductive Details :=
| DetailsThreshold (similarity : JsNum.t) (voterName voterIdent : string)
| DetailsSuspected (similarity sizeVariation : JsNum.t) (voterName voterIdent : string)
| DetailsText (msg : string).

Record DuplicateCheck := {
  isDuplicate : bool;
  existingVoter : option Voter;
  dupSimilarity : JsNum.t;
  details : Details
}.

Definition MAXIMUM_SECURITY_THRESHOLD : JsNum.t := JsNum.lit 45 100.
Definition HIGH_SIMILARITY : JsNum.t := JsNum.lit 35 100.
Definition SUSPECTED_SIMILARITY : JsNum.t := JsNum.lit 40 100.
Definition MAX_SIZE_VARIATION : JsNum.t := JsNum.lit 5 100.

(** The result of lines 61-66. *)
Definition noDuplicate : DuplicateCheck :=
  {| isDuplicate := false; existingVoter := None;
     dupSimilarity := JsNum.of_nat 0;
     details := DetailsText "No similar face patterns detected in database" |}.

(** [sizeVariation] of lines 40-42, on the full data URLs. *)
Definition sizeVariation (faceData1 faceData2 : string) : JsNum.t :=
  let sizeDiff :=
    JsNum.abs (JsNum.sub (JsNum.of_nat (String.length faceData1))
                         (JsNum.of_nat (String.length faceData2))) in
  let avgSize :=
    JsNum.div (JsNum.add (JsNum.of_nat (String.length faceData1))
                         (JsNum.of_nat (String.length faceData2)))
              (JsNum.of_nat 2) in
  JsNum.div sizeDiff avgSize.

Section DuplicateScan.

(** The similarity function the scan calls. *)
Variable similarityOf : string -> string -> JsNum.t.

(** The [for] loop of lines 10-58 over the remaining roster. *)
Fixpoint duplicate_scan (newFace : string) (voters : list Voter)
    : DuplicateCheck :=
  match voters with
  | [] => noDuplicate
  | existing :: rest =>
      let sim := similarityOf newFace (faceData existing) in
      if JsNum.ge sim MAXIMUM_SECURITY_THRESHOLD then
        {| isDuplicate := true; existingVoter := Some existing;
           dupSimilarity := sim;
           details := DetailsThreshold sim (name existing) (voterId existing) |}
      else if JsNum.ge sim HIGH_SIMILARITY then
        let sv := sizeVariation newFace (faceData existing) in
        if JsNum.lt sv MAX_SIZE_VARIATION && JsNum.ge sim SUSPECTED_SIMILARITY
        then
          {| isDuplicate := true; existingVoter := Some existing;
             dupSimilarity := sim;
             details := DetailsSuspected sim sv (name existing) (voterId existing) |}
        else duplicate_scan newFace rest
      else duplicate_scan newFace rest
  end.

(** Whether roster entry [v] ends the scan with a duplicate report: its
    similarity reaches 45%, or it reaches 40% with a size variation below
    5%. *)
Definition flagsDuplicate (newFace : string) (v : Voter) : bool :=
  let sim := similarityOf newFace (faceData v) in
  JsNum.ge sim MAXIMUM_SECURITY_THRESHOLD
  || (JsNum.ge sim SUSPECTED_SIMILARITY
      && JsNum.lt (sizeVariation newFace (faceData v)) MAX_SIZE_VARIATION).

End DuplicateScan.

(** [isFaceAlreadyRegistered] (lines 6-67), with the maximum-security
    scorer. *)
Definition isFaceAlreadyRegistered (faceData : string) (voters : list Voter)
    : DuplicateCheck :=
  duplicate_scan calculateMaximumSecurityFaceSimilarity faceData voters.

Definition flagsDuplicateReg : string -> Voter -> bool :=
  flagsDuplicate calculateMaximumSecurityFaceSimilarity.

(** ** [verifyVoterService] (authenticationService.ts) *)

Record AuthResult := {
  success : bool;
  message : string;
  authVoter : option Voter
}.

Definition msgMismatch : string :=
  "Verification Failed: Voter authentication data mismatch. Please contact the Election Officer.".
Definition msgAlreadyVoted : string :=
  "Verification Failed: You have already cast your vote. Each voter can only vote once per election.".
Definition msgQuality : string :=
  "Verification Failed: Face image quality insufficient. Please ensure proper lighting and clear visibility of your face, then try again.".
Definition msgIntegrity : string :=
  "Verification Failed: Data integrity check failed. Please contact the Election Officer.".
Definition msgSuccess : string :=
  "Authentication successful. You are authorized to cast your vote.".

(** The credential predicate of [voters.find] (lines 19-23). *)
Definition credentialsMatch (aadhaar vid nm : string) (v : Voter) : bool :=
  String.eqb (aadhaarNumber v) aadhaar && String.eqb (voterId v) vid
  && String.eqb (name v) nm.

Section VoterService.

(** [validateFaceImageQuality(faceData).isValid] and the truthiness of
    [verifyFaceMatch(registered, current)] (an object in the first version
    of faceVerification.ts, a boolean in the second): the service is
    modelled for any such functions. *)
Variable faceQualityIsValid : string -> bool.
Variable faceMatches : string -> string -> bool.

(** [verifyVoterService] (lines 5-130); [capturedFace] is the [faceData]
    argument. *)
Definition verifyVoterService (aadhaar vid nm capturedFace : string)
    (voters : list Voter) : AuthResult :=
  match List.find (credentialsMatch aadhaar vid nm) voters with
  | None => {| success := false; message := msgMismatch; authVoter := None |}
  | Some voter =>
      if hasVoted voter then
        {| success := false; message := msgAlreadyVoted; authVoter := None |}
      else if negb (faceQualityIsValid capturedFace) then
        {| success := false; message := msgQuality; authVoter := None |}
      else if negb (faceMatches (faceData voter) capturedFace) then
        {| success := false; message := msgMismatch; authVoter := None |}
      else
        let finalValidation :=
          String.eqb (aadhaarNumber voter) aadhaar
          && String.eqb (voterId voter) vid
          && String.eqb (name voter) nm
          && negb (hasVoted voter) in
        if negb finalValidation then
          {| success := false; message := msgIntegrity; authVoter := None |}
        else {| success := true; message := msgSuccess; authVoter := Some voter |}
  end.

End VoterService.

(** ** Concrete rosters *)

Definition mkVoter (ident face : string) : Voter :=
  {| id := ident; name := String.append "Voter " ident;
     aadhaarNumber := "123456789012"; voterId := String.append "A12345678" ident;
     address := "Main Street"; faceData := face; irisData := "";
     hasVoted := false |}.

(** A valid blob over other characters than [blobN]. *)
Definition blobCD := blob_of_block "CDCDCDCD".

Definition voter25 := mkVoter "1" blob25.
Definition voter50 := mkVoter "2" blob50.
Definition voter75 := mkVoter "3" blob75.
Definition voterN := mkVoter "4" blobN.
Definition voter37 := mkVoter "5" blob37.
Definition voterCD := mkVoter "6" blobCD.

(** A voter who has already voted. *)
Definition votedVoter : Voter :=
  {| id := "7"; name := "Asha"; aadhaarNumber := "123412341234";
     voterId := "A12345678B"; address := "Main Street"; faceData := blobN;
     irisData := ""; hasVoted := true |}.

(** ** Bounds on JavaScript numbers *)

(** [x] is NaN or a finite number in [[lo, hi]]. *)
Definition nan_or_within (lo hi : Q) (x : JsNum.t) : Prop :=
  match x with
  | JsNum.Fin q => (lo <= q /\ q <= hi)%Q
  | JsNum.NaN => True
  | JsNum.Inf _ => False
  end.

(** ** Validation helpers (validation.ts, concatenated in part_010) *)

(** [s.charAt(i)]: the one-character string, or [""] out of range. *)
Definition charAt (s : string) (i : nat) : string :=
  match String.get i s with
  | Some c => String c EmptyString
  | None => EmptyString
  end.

Definition is_ascii_letter (c : ascii) : bool :=
  let n := nat_of_ascii c in
  ((65 <=? n) && (n <=? 90)) || ((97 <=? n) && (n <=? 122)).

Definition is_ascii_digit (c : ascii) : bool :=
  let n := nat_of_ascii c in (48 <=? n) && (n <=? 57).

(** [/^[A-Za-z]$/.test(s)] *)
Definition test_single_letter (s : string) : bool :=
  match s with String c EmptyString => is_ascii_letter c | _ => false end.

(** [/^[0-9]$/.test(s)] *)
Definition test_single_digit (s : string) : bool :=
  match s with String c EmptyString => is_ascii_digit c | _ => false end.

(** [validateVoterIdFormat] (part_010, lines 395-410). *)
Definition validateVoterIdFormat (vid : string) : bool :=
  if negb (String.length vid =? 10) then false
  else
    let firstChar := charAt vid 0 in
    let lastChar := charAt vid 9 in
    test_single_letter firstChar && test_single_digit lastChar.

Fixpoint all_digits (s : string) : bool :=
  match s with
  | EmptyString => true
  | String c r => is_ascii_digit c && all_digits r
  end.

(** [/^\d{12}$/.test(s)] *)
Definition test_aadhaar (s : string) : bool :=
  (String.length s =? 12) && all_digits s.

(** ** [registerVoterService] (services/voterService, part_000) *)

(** [Omit<Voter, 'id' | 'hasVoted'>] *)
Module VoterInput.
Record t := {
  name : string;
  aadhaarNumber : string;
  voterId : string;
  address : string;
  faceData : string;
  irisData : string
}.
End VoterInput.

(** The [isValid] and [details] fields of [validateFaceImageQuality]. *)
Record FaceQuality := {
  fq_isValid : bool;
  fq_details : string
}.

(** The [message] of the result: the interpolated template strings are kept
    as their template and arguments. *)
Inductive RegisterMessage :=
| MsgInvalidVoterId
| MsgInvalidAadhaar
| MsgFaceQuality (faceDetails : string)
| MsgIrisQuality
| MsgDuplicateAadhaar (existingName : string)
| MsgDuplicateVoterId (existingName : string)
| MsgDuplicateFace (existingName existingVoterId : string) (faceDetails : Details)
| MsgRegistered.

Record RegisterResult := {
  reg_success : bool;
  reg_message : RegisterMessage
}.

Definition reg_fail (m : RegisterMessage) : RegisterResult :=
  {| reg_success := false; reg_message := m |}.

Section RegisterService.

(** [validateFaceImageQuality] (its entropy test uses [Math.log2]). *)
Variable validateFaceImageQuality : string -> FaceQuality.

(** [registerVoterService] (part_000, lines 5-97). *)
Definition registerVoterService (voterData : VoterInput.t) (voters : list Voter)
    : RegisterResult :=
  if negb (validateVoterIdFormat (VoterInput.voterId voterData)) then
    reg_fail MsgInvalidVoterId
  else if negb (test_aadhaar (VoterInput.aadhaarNumber voterData)) then
    reg_fail MsgInvalidAadhaar
  else
    let faceQuality := validateFaceImageQuality (VoterInput.faceData voterData) in
    if negb (fq_isValid faceQuality) then
      reg_fail (MsgFaceQuality (fq_details faceQuality))
    else if String.eqb (VoterInput.irisData voterData) ""
            || (String.length (VoterInput.irisData voterData) <? 10000) then
      reg_fail MsgIrisQuality
    else
      match List.find (fun v => String.eqb (aadhaarNumber v)
                                  (VoterInput.aadhaarNumber voterData)) voters with
      | Some duplicateAadhaar => reg_fail (MsgDuplicateAadhaar (name duplicateAadhaar))
      | None =>
          match List.find (fun v => String.eqb (voterId v)
                                      (VoterInput.voterId voterData)) voters with
          | Some duplicateVoterId =>
              reg_fail (MsgDuplicateVoterId (name duplicateVoterId))
          | None =>
              let faceCheck :=
                isFaceAlreadyRegistered (VoterInput.faceData voterData) voters in
              match isDuplicate faceCheck, existingVoter faceCheck with
              | true, Some existing =>
                  reg_fail (MsgDuplicateFace (name existing) (voterId existing)
                              (details faceCheck))
              | _, _ => {| reg_success := true; reg_message := MsgRegistered |}
              end
          end
      end.

End RegisterService.

(** ** The voting context (context/VotingContext, part_005) *)

Record Candidate := {
  candId : string;
  candName : string;
  party : string;
  symbol : string;
  voteCount : nat
}.

(** The React state of [VotingProvider]; each operation maps the state
    before the call to its result and the state after it. *)
Record State := {
  voters : list Voter;
  candidates : list Candidate;
  isAdminAuthenticated : bool
}.

Record OpResult := {
  op_success : bool;
  op_message : string
}.

Definition with_voters (s : State) (vs : list Voter) : State :=
  {| voters := vs; candidates := candidates s;
     isAdminAuthenticated := isAdminAuthenticated s |}.

Definition with_candidates (s : State) (cs : list Candidate) : State :=
  {| voters := voters s; candidates := cs;
     isAdminAuthenticated := isAdminAuthenticated s |}.

(** [{ ...v, hasVoted: true }] *)
Definition markVoted (v : Voter) : Voter :=
  {| id := id v; name := name v; aadhaarNumber := aadhaarNumber v;
     voterId := voterId v; address := address v; faceData := faceData v;
     irisData := irisData v; hasVoted := true |}.

(** [{ ...c, voteCount: c.voteCount + 1 }] *)
Definition addVote (c : Candidate) : Candidate :=
  {| candId := candId c; candName := candName c; party := party c;
     symbol := symbol c; voteCount := S (voteCount c) |}.

(** [{ ...voterData, id: Date.now().toString(), hasVoted: false }];
    [newId] is the clock reading. *)
Definition newVoter (voterData : VoterInput.t) (newId : string) : Voter :=
  {| id := newId; name := VoterInput.name voterData;
     aadhaarNumber := VoterInput.aadhaarNumber voterData;
     voterId := VoterInput.voterId voterData;
     address := VoterInput.address voterData;
     faceData := VoterInput.faceData voterData;
     irisData := VoterInput.irisData voterData; hasVoted := false |}.

Section Context.

Variable validateFaceImageQuality : string -> FaceQuality.

(** [registerVoter] (lines 24-37). *)
Definition registerVoter (s : State) (voterData : VoterInput.t) (newId : string)
    : RegisterResult * State :=
  let result := registerVoterService validateFaceImageQuality voterData (voters s) in
  if reg_success result then
    (result, with_voters s (voters s ++ [newVoter voterData newId]))
  else (result, s).

(** [castVote] (lines 156-186). *)
Definition castVote (s : State) (candidateId vid : string) : bool * State :=
  match List.find (fun v => String.eqb (id v) vid) (voters s) with
  | None => (false, s)
  | Some voter =>
      if hasVoted voter then (false, s)
      else
        (true,
         with_candidates
           (with_voters s
              (map (fun v => if String.eqb (id v) vid then markVoted v else v)
                   (voters s)))
           (map (fun c => if String.eqb (candId c) candidateId then addVote c else c)
                (candidates s)))
  end.

(** [deleteVoter] (lines 130-150). *)
Definition deleteVoter (s : State) (vid : string) : OpResult * State :=
  match List.find (fun v => String.eqb (id v) vid) (voters s) with
  | None => ({| op_success := false; op_message := "Voter not found." |}, s)
  | Some _ =>
      ({| op_success := true; op_message := "Voter deleted successfully." |},
       with_voters s (filter (fun v => negb (String.eqb (id v) vid)) (voters s)))
  end.

End Context.

(** [Partial<Omit<Voter, 'id'>>]: [None] is an absent key. *)
Record VoterUpdate := {
  upd_name : option string;
  upd_aadhaarNumber : option string;
  upd_voterId : option string;
  upd_address : option string;
  upd_faceData : option string;
  upd_irisData : option string;
  upd_hasVoted : option bool
}.

(** Truthiness of an optional string field. *)
Definition truthy (o : option string) : bool :=
  match o with Some s => negb (String.eqb s "") | None => false end.

Definition override {A} (o : option A) (x : A) : A :=
  match o with Some y => y | None => x end.

(** [{ ...v, ...updates }] *)
Definition applyUpdate (u : VoterUpdate) (v : Voter) : Voter :=
  {| id := id v; name := override (upd_name u) (name v);
     aadhaarNumber := override (upd_aadhaarNumber u) (aadhaarNumber v);
     voterId := override (upd_voterId u) (voterId v);
     address := override (upd_address u) (address v);
     faceData := override (upd_faceData u) (faceData v);
     irisData := override (upd_irisData u) (irisData v);
     hasVoted := override (upd_hasVoted u) (hasVoted v) |}.

(** The predicate of [voters.find] in [updateVoter] (lines 104-109). *)
Definition clashesWithUpdate (vid : string) (u : VoterUpdate) (v : Voter) : bool :=
  negb (String.eqb (id v) vid)
  && ((truthy (upd_aadhaarNumber u)
       && String.eqb (aadhaarNumber v) (override (upd_aadhaarNumber u) ""))
      || (truthy (upd_voterId u)
          && String.eqb (voterId v) (override (upd_voterId u) ""))).

(** [updateVoter] (lines 88-128). *)
Definition updateVoter (s : State) (vid : string) (u : VoterUpdate)
    : OpResult * State :=
  match List.find (fun v => String.eqb (id v) vid) (voters s) with
  | None => ({| op_success := false; op_message := "Voter not found." |}, s)
  | Some _ =>
      if (truthy (upd_aadhaarNumber u) || truthy (upd_voterId u))
         && match List.find (clashesWithUpdate vid u) (voters s) with
            | Some _ => true | None => false end
      then
        ({| op_success := false;
            op_message := "Aadhaar number or Voter ID already exists for another voter." |},
         s)
      else
        ({| op_success := true;
            op_message := "Voter information updated successfully." |},
         with_voters s
           (map (fun v => if String.eqb (id v) vid then applyUpdate u v else v)
                (voters s)))
  end.

(** [verifyVoter] (lines 152-154). *)
Definition verifyVoter (faceQualityIsValid : string -> bool)
    (faceMatches : string -> string -> bool) (s : State)
    (aadhaar vid nm capturedFace : string) : AuthResult :=
  verifyVoterService faceQualityIsValid faceMatches aadhaar vid nm capturedFace (voters s).

(** Total of the candidates' [voteCount]s. *)
Definition totalVotes (cs : list Candidate) : nat :=
  fold_right (fun c acc => voteCount c + acc) 0 cs.

(** Aadhaar numbers and Voter IDs are pairwise distinct. *)
Definition uniqueCredentials (vs : list Voter) : Prop :=
  NoDup (map aadhaarNumber vs) /\ NoDup (map voterId vs).
(** ** Candidates ([addCandidate], [updateCandidate], lines 39-86) *)

(** [Omit<Candidate, 'id' | 'voteCount'>] *)
Module CandidateInput.
Record t := {
  name : string;
  party : string;
  symbol : string
}.
End CandidateInput.

(** [addCandidate] (lines 39-46); [newId] is the clock reading. *)
Definition addCandidate (s : State) (candidateData : CandidateInput.t)
    (newId : string) : State :=
  with_candidates s
    (candidates s
     ++ [{| candId := newId; candName := CandidateInput.name candidateData;
            party := CandidateInput.party candidateData;
            symbol := CandidateInput.symbol candidateData; voteCount := 0 |}]).

(** [String.prototype.toLowerCase] and [trim] on ASCII text: the letters
    [A-Z] are lowered; the white space trimmed is tab, line feed, vertical
    tab, form feed, carriage return and space. *)
Definition lower_ascii (c : ascii) : ascii :=
  let n := nat_of_ascii c in
  if (65 <=? n) && (n <=? 90) then ascii_of_nat (n + 32) else c.

Fixpoint js_toLowerCase (s : string) : string :=
  match s with
  | EmptyString => EmptyString
  | String c r => String (lower_ascii c) (js_toLowerCase r)
  end.

Definition is_js_space (c : ascii) : bool :=
  let n := nat_of_ascii c in ((9 <=? n) && (n <=? 13)) || (n =? 32).

Fixpoint trim_left (s : string) : string :=
  match s with
  | EmptyString => EmptyString
  | String c r => if is_js_space c then trim_left r else s
  end.

Fixpoint trim_right (s : string) : string :=
  match s with
  | EmptyString => EmptyString
  | String c r =>
      let r' := trim_right r in
      if is_js_space c && String.eqb r' "" then EmptyString else String c r'
  end.

Definition js_trim (s : string) : string := trim_right (trim_left s).

(** [name.toLowerCase().trim()] *)
Definition candidateKey (nm : string) : string := js_trim (js_toLowerCase nm).

(** [{ ...c, ...updates }] *)
Definition applyCandidateUpdate (u : CandidateInput.t) (c : Candidate) : Candidate :=
  {| candId := candId c; candName := CandidateInput.name u;
     party := CandidateInput.party u; symbol := CandidateInput.symbol u;
     voteCount := voteCount c |}.

(** The predicate of [candidates.find] in [updateCandidate] (lines 62-67). *)
Definition clashesWithCandidate (candidateId : string) (u : CandidateInput.t)
    (c : Candidate) : bool :=
  negb (String.eqb (candId c) candidateId)
  && (String.eqb (candidateKey (candName c)) (candidateKey (CandidateInput.name u))
      || String.eqb (symbol c) (CandidateInput.symbol u)).

(** [updateCandidate] (lines 48-86). *)
Definition updateCandidate (s : State) (candidateId : string)
    (updates : CandidateInput.t) : OpResult * State :=
  match List.find (fun c => String.eqb (candId c) candidateId) (candidates s) with
  | None => ({| op_success := false; op_message := "Candidate not found." |}, s)
  | Some _ =>
      match List.find (clashesWithCandidate candidateId updates) (candidates s) with
      | Some _ =>
          ({| op_success := false;
              op_message := "Candidate name or symbol already exists for another candidate." |},
           s)
      | None =>
          ({| op_success := true;
              op_message := "Candidate information updated successfully." |},
           with_candidates s
             (map (fun c => if String.eqb (candId c) candidateId
                            then applyCandidateUpdate updates c else c)
                  (candidates s)))
      end
  end.

(** Equality of JavaScript numbers as values ([===] on non-NaN numbers,
    with NaN equal to itself): finite numbers are compared as rationals. *)
Definition jeq (x y : JsNum.t) : Prop :=
  match x, y with
  | JsNum.Fin a, JsNum.Fin b => (a == b)%Q
  | JsNum.NaN, JsNum.NaN => True
  | JsNum.Inf p, JsNum.Inf q => p = q
  | _, _ => False
  end.

(** [x] is NaN or a non-negative finite number. *)
Definition nonneg_or_nan (x : JsNum.t) : Prop :=
  match x with
  | JsNum.Fin q => (0 <= q)%Q
  | JsNum.NaN => True
  | JsNum.Inf _ => False
  end.

(** The checks of [registerVoterService] on the fields that are stored. *)
Definition registeredShape (v : Voter) : bool :=
  validateVoterIdFormat (voterId v) && test_aadhaar (aadhaarNumber v)
  && (10000 <=? String.length (irisData v)).

(** Distinct credentials, and every voter of the shape registration checks. *)
Definition rosterInvariant (vs : list Voter) : Prop :=
  uniqueCredentials vs /\ Forall (fun v => registeredShape v = true) vs.

(** ** Concrete states *)

(** The initial [candidates] state (lines 18-21); the symbols are the
    UTF-8 bytes of the source's emoji. *)
Definition initialCandidates : list Candidate :=
  [ {| candId := "1"; candName := "John Smith"; party := "Democratic Party";
       symbol := "🔵"; voteCount := 0 |};
    {| candId := "2"; candName := "Sarah Johnson"; party := "Republican Party";
       symbol := "🔴"; voteCount := 0 |} ].

Definition sampleIris : string := repeat_str 10000 "I".

Definition sampleVoter : Voter :=
  {| id := "100"; name := "Ravi"; aadhaarNumber := "123456789012";
     voterId := "A123456789"; address := "Main Street"; faceData := "face-1";
     irisData := sampleIris; hasVoted := false |}.

Definition sampleState : State :=
  {| voters := [sampleVoter]; candidates := initialCandidates;
     isAdminAuthenticated := false |}.

Definition sampleInput : VoterInput.t :=
  {| VoterInput.name := "Meena"; VoterInput.aadhaarNumber := "210987654321";
     VoterInput.voterId := "B987654321"; VoterInput.address := "Main Street";
     VoterInput.faceData := "face-2"; VoterInput.irisData := sampleIris |}.

(** A quality check accepting every image. *)
Definition acceptAllQuality (img : string) : FaceQuality :=
  {| fq_isValid := true; fq_details := "" |}.


(** * Properties *)

(** ** Comparisons of JavaScript numbers *)

Lemma ge_fin_mono (s : JsNum.t) (x y : Q) :
  Qle x y -> JsNum.ge s (JsNum.Fin y) = true -> JsNum.ge s (JsNum.Fin x) = true.
Proof.
  intros Hxy. destruct s as [q | | p]; simpl; try discriminate; auto.
  unfold JsNum.qlt. rewrite !negb_involutive, !Qle_bool_iff.
  intro Hyq. eapply Qle_trans; eassumption.
Qed.

Lemma ge_verification_dup (s : JsNum.t) :
  JsNum.ge s verification_threshold = true ->
  JsNum.ge s MAXIMUM_SECURITY_THRESHOLD = true.
Proof.
  apply ge_fin_mono. unfold Qle; simpl; lia.
Qed.

Lemma ge_suspected_high (s : JsNum.t) :
  JsNum.ge s SUSPECTED_SIMILARITY = true -> JsNum.ge s HIGH_SIMILARITY = true.
Proof.
  apply ge_fin_mono. unfold Qle; simpl; lia.
Qed.

Lemma ge_one_dup : JsNum.ge (JsNum.of_nat 1) MAXIMUM_SECURITY_THRESHOLD = true.
Proof. reflexivity. Qed.

(** ** The duplicate scan reports the first flagged entry *)

Section ScanFacts.

Variable similarityOf : string -> string -> JsNum.t.

(** One step of the scan: a flagged head ends it with the head reported. *)
Lemma scan_cons_flagged (face : string) (v : Voter) (rest : list Voter) :
  flagsDuplicate similarityOf face v = true ->
  isDuplicate (duplicate_scan similarityOf face (v :: rest)) = true
  /\ existingVoter (duplicate_scan similarityOf face (v :: rest)) = Some v
  /\ dupSimilarity (duplicate_scan similarityOf face (v :: rest))
     = similarityOf face (faceData v).
Proof.
  unfold flagsDuplicate; simpl.
  destruct (JsNum.ge (similarityOf face (faceData v)) MAXIMUM_SECURITY_THRESHOLD);
    simpl; [auto |].
  intro H. apply andb_true_iff in H as [Hs Hv].
  rewrite (ge_suspected_high _ Hs), Hv, Hs. simpl. auto.
Qed.

(** A head that is not flagged is skipped. *)
Lemma scan_cons_skipped (face : string) (v : Voter) (rest : list Voter) :
  flagsDuplicate similarityOf face v = false ->
  duplicate_scan similarityOf face (v :: rest)
  = duplicate_scan similarityOf face rest.
Proof.
  unfold flagsDuplicate; simpl.
  destruct (JsNum.ge (similarityOf face (faceData v)) MAXIMUM_SECURITY_THRESHOLD);
    simpl; [discriminate |].
  intro H. rewrite andb_comm in H. rewrite H.
  destruct (JsNum.ge (similarityOf face (faceData v)) HIGH_SIMILARITY); reflexivity.
Qed.

Lemma scan_skip_prefix (face : string) (pre rest : list Voter) :
  Forall (fun u => flagsDuplicate similarityOf face u = false) pre ->
  duplicate_scan similarityOf face (pre ++ rest)
  = duplicate_scan similarityOf face rest.
Proof.
  induction 1 as [| u pre Hu _ IH]; simpl; [reflexivity |].
  rewrite <- IH. apply scan_cons_skipped. exact Hu.
Qed.

(** The reported entry is the first flagged one, in roster order. *)
Lemma scan_reports_find (face : string) (voters : list Voter) :
  existingVoter (duplicate_scan similarityOf face voters)
  = List.find (flagsDuplicate similarityOf face) voters
  /\ isDuplicate (duplicate_scan similarityOf face voters)
     = List.existsb (flagsDuplicate similarityOf face) voters.
Proof.
  induction voters as [| v rest IH]; [split; reflexivity |].
  simpl List.find; simpl List.existsb.
  case_eq (flagsDuplicate similarityOf face v); intro Hv.
  - destruct (scan_cons_flagged face v rest Hv) as [Hd [He _]]. auto.
  - rewrite (scan_cons_skipped face v rest Hv). exact IH.
Qed.

End ScanFacts.

(** The strict scorer scores byte-identical inputs [1]. *)
Lemma strict_refl (a : string) :
  calculateStrictVotingFaceSimilarity a a = JsNum.of_nat 1.
Proof.
  unfold calculateStrictVotingFaceSimilarity. rewrite String.eqb_refl. reflexivity.
Qed.

(** ** Claims about the scorer *)

(** C1, counterexample: a blob failing the scorer's image validation,
    compared with itself, scores [1], not [0]: the exact-match check comes
    before the validation. *)
Lemma scorer_invalid_equal_inputs_score_one :
  Strict.isValidImage "x" = false
  /\ calculateStrictVotingFaceSimilarity "x" "x" = JsNum.of_nat 1.
Proof. split; reflexivity. Qed.

(** C1, amended: when either input fails the scorer's image validation
    (prefix [data:image/], marker [base64,], length above 10000), the
    score is [0] unless the two inputs are byte-identical, in which case it
    is [1]. *)
Theorem scorer_invalid_input_floor (a b : string) :
  Strict.isValidImage a = false \/ Strict.isValidImage b = false ->
  calculateStrictVotingFaceSimilarity a b
  = if String.eqb a b then JsNum.of_nat 1 else JsNum.of_nat 0.
Proof.
  intro H. unfold calculateStrictVotingFaceSimilarity.
  destruct (String.eqb a b); [reflexivity |].
  destruct H as [H | H]; rewrite H; simpl; [reflexivity |].
  rewrite orb_true_r. reflexivity.
Qed.

Lemma scorer_invalid_input_floor_witness :
  (Strict.isValidImage "x" = false \/ Strict.isValidImage blobN = false)
  /\ calculateStrictVotingFaceSimilarity "x" blobN = JsNum.of_nat 0.
Proof.
  split; [left; reflexivity |].
  refine (eq_trans (scorer_invalid_input_floor "x" blobN (or_introl eq_refl)) _).
  reflexivity.
Defined.

(** C4: [verifyFaceMatch] reports a match exactly when the strict score is
    at least the verification threshold [0.60] (a JavaScript [>=], false on
    NaN), and it reports that score. *)
Theorem verifyFaceMatch_iff_threshold (a b : string) :
  (isMatch (verifyFaceMatch a b) = true
   <-> JsNum.ge (calculateStrictVotingFaceSimilarity a b) verification_threshold = true)
  /\ similarity (verifyFaceMatch a b) = calculateStrictVotingFaceSimilarity a b
  /\ verification_threshold = JsNum.lit 60 100.
Proof.
  unfold verifyFaceMatch; simpl. split; [reflexivity | split; reflexivity].
Qed.

(** C5: the registration threshold [0.45] is below the voting threshold
    [0.60]; every score that passes voting verification reaches the
    registration threshold; and some pair scores in between: flagged at
    registration, rejected at voting. *)
Theorem duplicate_threshold_below_verification :
  JsNum.lt MAXIMUM_SECURITY_THRESHOLD verification_threshold = true
  /\ (forall a b : string,
        isMatch (verifyFaceMatch a b) = true ->
        JsNum.ge (calculateMaximumSecurityFaceSimilarity a b)
                 MAXIMUM_SECURITY_THRESHOLD = true)
  /\ (exists a b : string,
        JsNum.ge (calculateMaximumSecurityFaceSimilarity a b)
                 MAXIMUM_SECURITY_THRESHOLD = true
        /\ isMatch (verifyFaceMatch a b) = false).
Proof.
  split; [reflexivity | split].
  - intros a b H. apply ge_verification_dup. exact H.
  - exists blobN, blob37. vm_compute. split; reflexivity.
Qed.

Lemma duplicate_threshold_below_verification_witness :
  isMatch (verifyFaceMatch blobN blob75) = true
  /\ JsNum.ge (calculateMaximumSecurityFaceSimilarity blobN blob75)
              MAXIMUM_SECURITY_THRESHOLD = true.
Proof.
  assert (H : isMatch (verifyFaceMatch blobN blob75) = true)
    by (vm_compute; reflexivity).
  split; [exact H |].
  exact (proj1 (proj2 duplicate_threshold_below_verification) blobN blob75 H).
Defined.

(** C6 (defect): two distinct blobs that pass the scorer's validation, with
    constant payloads, make both variances [0]; [varDiff / max(...)] is
    [0 / 0] and the score is NaN, outside [[0, 1]]. *)
Theorem scorer_nan_on_flat_payloads :
  Strict.isValidImage flatA10000 = true
  /\ Strict.isValidImage flatA10001 = true
  /\ String.eqb flatA10000 flatA10001 = false
  /\ calculateStrictVotingFaceSimilarity flatA10000 flatA10001 = JsNum.NaN.
Proof. vm_compute. repeat split. Qed.

(** C8: the scorer is a function of its two arguments only: equal inputs
    give identical results (no random or external input is read). *)
Theorem scorer_deterministic (a b a' b' : string) :
  a = a' -> b = b' ->
  calculateStrictVotingFaceSimilarity a b
  = calculateStrictVotingFaceSimilarity a' b'.
Proof. intros -> ->. reflexivity. Qed.

Lemma scorer_deterministic_witness :
  calculateStrictVotingFaceSimilarity blobN blob25
  = calculateStrictVotingFaceSimilarity blobN blob25.
Proof. exact (scorer_deterministic blobN blob25 blobN blob25 eq_refl eq_refl). Defined.

(** ** Claims about the duplicate check *)

(** A search over [l1 ++ l2] stops in [l1] when [l1] has a hit. *)
Lemma find_app_flagged_prefix {A} (p : A -> bool) (l1 l2 : list A) :
  Exists (fun x => p x = true) l1 -> List.find p (l1 ++ l2) = List.find p l1.
Proof.
  induction 1 as [x l Hx | x l _ IH]; simpl; [rewrite Hx; reflexivity |].
  destruct (p x); [reflexivity | exact IH].
Qed.

(** The duplicate check reports the first flagged voter of the roster. *)
Lemma dup_existing_find (face : string) (voters : list Voter) :
  existingVoter (isFaceAlreadyRegistered face voters)
  = List.find (flagsDuplicateReg face) voters.
Proof.
  exact (proj1 (scan_reports_find calculateMaximumSecurityFaceSimilarity face voters)).
Qed.

(** C2, counterexample: in the roster [[voter25; voter50; voter75]] the
    second and third voters score at least [0.45] against [blobN], yet the
    first voter (score [0.4385], equal sizes) is reported, through the
    size-variation rule. *)
Lemma duplicate_check_reports_suspected_first :
  JsNum.ge (calculateMaximumSecurityFaceSimilarity blobN (faceData voter50))
           MAXIMUM_SECURITY_THRESHOLD = true
  /\ JsNum.ge (calculateMaximumSecurityFaceSimilarity blobN (faceData voter75))
              MAXIMUM_SECURITY_THRESHOLD = true
  /\ JsNum.ge (calculateMaximumSecurityFaceSimilarity blobN (faceData voter25))
              MAXIMUM_SECURITY_THRESHOLD = false
  /\ existingVoter (isFaceAlreadyRegistered blobN [voter25; voter50; voter75])
     = Some voter25.
Proof. vm_compute. repeat split. Qed.

(** C2, amended: the reported voter is the first one in roster order that
    is flagged (score at least [0.45], or at least [0.40] with a size
    variation below 5%), and a duplicate is reported iff some voter is
    flagged. *)
Theorem duplicate_check_first_flagged (face : string) (voters : list Voter) :
  existingVoter (isFaceAlreadyRegistered face voters)
  = List.find (flagsDuplicateReg face) voters
  /\ isDuplicate (isFaceAlreadyRegistered face voters)
     = List.existsb (flagsDuplicateReg face) voters.
Proof. apply scan_reports_find. Qed.

(** C3, counterexample: [blobN] is byte-identical to the blob of the second
    voter of [[voter50; voterN; voter75]], yet the first voter is reported,
    with similarity [5/8], not [1]. *)
Lemma duplicate_check_byte_equal_not_first :
  faceData voterN = blobN
  /\ existingVoter (isFaceAlreadyRegistered blobN [voter50; voterN; voter75])
     = Some voter50
  /\ dupSimilarity (isFaceAlreadyRegistered blobN [voter50; voterN; voter75])
     = JsNum.Fin (5 # 8).
Proof. vm_compute. repeat split. Qed.

(** C3, amended: when some voter's blob is byte-identical to the new blob a
    duplicate is reported; the reported voter is the first flagged voter in
    roster order; it is the byte-identical voter, with similarity exactly
    [1], when no earlier voter is flagged, and an earlier voter when one is
    flagged. *)
Theorem duplicate_check_byte_equal (face : string) (pre post : list Voter)
    (v : Voter) :
  faceData v = face ->
  isDuplicate (isFaceAlreadyRegistered face (pre ++ v :: post)) = true
  /\ (Forall (fun u => flagsDuplicateReg face u = false) pre ->
      isFaceAlreadyRegistered face (pre ++ v :: post)
      = {| isDuplicate := true; existingVoter := Some v;
           dupSimilarity := JsNum.of_nat 1;
           details := DetailsThreshold (JsNum.of_nat 1) (name v) (voterId v) |})
  /\ existingVoter (isFaceAlreadyRegistered face (pre ++ v :: post))
     = List.find (flagsDuplicateReg face) (pre ++ v :: post)
  /\ (Exists (fun u => flagsDuplicateReg face u = true) pre ->
      existingVoter (isFaceAlreadyRegistered face (pre ++ v :: post))
      = List.find (flagsDuplicateReg face) pre).
Proof.
  intro Hv. split; [| split; [| split]].
  - destruct (scan_reports_find calculateMaximumSecurityFaceSimilarity face
                (pre ++ v :: post)) as [_ Hd].
    unfold isFaceAlreadyRegistered. rewrite Hd, existsb_app. simpl.
    unfold flagsDuplicate, calculateMaximumSecurityFaceSimilarity.
    rewrite Hv, strict_refl, ge_one_dup. simpl. apply orb_true_r.
  - intro Hpre. unfold isFaceAlreadyRegistered.
    rewrite scan_skip_prefix by exact Hpre. simpl.
    unfold calculateMaximumSecurityFaceSimilarity.
    rewrite Hv, strict_refl, ge_one_dup. reflexivity.
  - apply dup_existing_find.
  - intro Hpre. rewrite dup_existing_find. apply find_app_flagged_prefix. exact Hpre.
Qed.

Lemma duplicate_check_byte_equal_witness :
  faceData voterN = blobN
  /\ Forall (fun u => flagsDuplicateReg blobN u = false) [voterCD]
  /\ isFaceAlreadyRegistered blobN ([voterCD] ++ voterN :: [voter75])
     = {| isDuplicate := true; existingVoter := Some voterN;
          dupSimilarity := JsNum.of_nat 1;
          details := DetailsThreshold (JsNum.of_nat 1) (name voterN) (voterId voterN) |}
  /\ Exists (fun u => flagsDuplicateReg blobN u = true) [voter50]
  /\ existingVoter (isFaceAlreadyRegistered blobN ([voter50] ++ voterN :: [voter75]))
     = List.find (flagsDuplicateReg blobN) [voter50].
Proof.
  assert (Hf : faceData voterN = blobN) by reflexivity.
  assert (Hp : Forall (fun u => flagsDuplicateReg blobN u = false) [voterCD])
    by (constructor; [vm_compute; reflexivity | constructor]).
  assert (He : Exists (fun u => flagsDuplicateReg blobN u = true) [voter50])
    by (constructor; vm_compute; reflexivity).
  split; [exact Hf | split; [exact Hp | split]].
  - exact (proj1 (proj2 (duplicate_check_byte_equal blobN [voterCD] [voter75] voterN Hf)) Hp).
  - split; [exact He |].
    exact (proj2 (proj2 (proj2 (duplicate_check_byte_equal blobN [voter50] [voter75] voterN Hf))) He).
Defined.

(** C7, counterexample: a blob failing validation gets the very result a
    valid, unmatched blob gets: no duplicate, with the detail "No similar
    face patterns detected in database". *)
Lemma duplicate_check_invalid_same_as_unmatched :
  Strict.isValidImage "not-a-data-url" = false
  /\ Strict.isValidImage blobCD = true
  /\ isFaceAlreadyRegistered "not-a-data-url" [voter75] = noDuplicate
  /\ isFaceAlreadyRegistered blobCD [voter75] = noDuplicate.
Proof. vm_compute. repeat split. Qed.

(** C7, amended: the duplicate check does not validate the new blob; a
    blob failing the scorer's validation and equal to no enrolled blob
    scores [0] against every voter, and the check returns [noDuplicate],
    the result of a valid blob that matches nobody. *)
Theorem duplicate_check_invalid_no_duplicate (face : string) (voters : list Voter) :
  Strict.isValidImage face = false ->
  Forall (fun v => faceData v <> face) voters ->
  isFaceAlreadyRegistered face voters = noDuplicate.
Proof.
  intros Hinv Hall. unfold isFaceAlreadyRegistered.
  induction Hall as [| v rest Hv _ IH]; [reflexivity |].
  simpl. unfold calculateMaximumSecurityFaceSimilarity,
    calculateStrictVotingFaceSimilarity.
  assert (Hne : String.eqb face (faceData v) = false).
  { apply String.eqb_neq. intro E. apply Hv. symmetry. exact E. }
  rewrite Hne, Hinv. simpl. exact IH.
Qed.

Lemma duplicate_check_invalid_no_duplicate_witness :
  Strict.isValidImage "x" = false
  /\ Forall (fun v => faceData v <> "x") [voter75]
  /\ isFaceAlreadyRegistered "x" [voter75] = noDuplicate.
Proof.
  assert (Hi : Strict.isValidImage "x" = false) by reflexivity.
  assert (Hf : Forall (fun v => faceData v <> "x") [voter75]).
  { constructor; [| constructor]. unfold voter75, mkVoter, blob75, blob_of_block.
    simpl. discriminate. }
  split; [exact Hi | split; [exact Hf |]].
  exact (duplicate_check_invalid_no_duplicate "x" [voter75] Hi Hf).
Defined.

(** C9, counterexample: [voter25] scores [0.4385] against [blobN] (at least
    [0.40], below [0.45]) with equal sizes, yet in the roster
    [[voter75; voter25]] the earlier [voter75] is reported, under the
    threshold rule. *)
Lemma duplicate_check_suspected_entry_not_reported :
  JsNum.ge (calculateMaximumSecurityFaceSimilarity blobN (faceData voter25))
           SUSPECTED_SIMILARITY = true
  /\ JsNum.ge (calculateMaximumSecurityFaceSimilarity blobN (faceData voter25))
              MAXIMUM_SECURITY_THRESHOLD = false
  /\ JsNum.lt (sizeVariation blobN (faceData voter25)) MAX_SIZE_VARIATION = true
  /\ existingVoter (isFaceAlreadyRegistered blobN [voter75; voter25])
     = Some voter75.
Proof. vm_compute. repeat split. Qed.

(** C9, amended: a roster entry scoring at least [0.40] and below [0.45],
    with a size variation below 5%, makes the check report a duplicate; the
    entry itself is reported, with the suspected-duplicate detail, when no
    earlier entry is flagged; otherwise the earlier flagged entry is
    reported: in every case the first flagged entry in roster order. *)
Theorem duplicate_check_suspected_rule (face : string) (pre post : list Voter)
    (v : Voter) :
  JsNum.ge (calculateMaximumSecurityFaceSimilarity face (faceData v))
           SUSPECTED_SIMILARITY = true ->
  JsNum.ge (calculateMaximumSecurityFaceSimilarity face (faceData v))
           MAXIMUM_SECURITY_THRESHOLD = false ->
  JsNum.lt (sizeVariation face (faceData v)) MAX_SIZE_VARIATION = true ->
  isDuplicate (isFaceAlreadyRegistered face (pre ++ v :: post)) = true
  /\ (Forall (fun u => flagsDuplicateReg face u = false) pre ->
      isFaceAlreadyRegistered face (pre ++ v :: post)
      = {| isDuplicate := true; existingVoter := Some v;
           dupSimilarity := calculateMaximumSecurityFaceSimilarity face (faceData v);
           details :=
             DetailsSuspected
               (calculateMaximumSecurityFaceSimilarity face (faceData v))
               (sizeVariation face (faceData v)) (name v) (voterId v) |})
  /\ existingVoter (isFaceAlreadyRegistered face (pre ++ v :: post))
     = List.find (flagsDuplicateReg face) (pre ++ v :: post)
  /\ (Exists (fun u => flagsDuplicateReg face u = true) pre ->
      existingVoter (isFaceAlreadyRegistered face (pre ++ v :: post))
      = List.find (flagsDuplicateReg face) pre).
Proof.
  intros Hs Hmax Hsv. split; [| split; [| split]].
  - destruct (scan_reports_find calculateMaximumSecurityFaceSimilarity face
                (pre ++ v :: post)) as [_ Hd].
    unfold isFaceAlreadyRegistered. rewrite Hd, existsb_app. simpl.
    unfold flagsDuplicate. rewrite Hs, Hsv, orb_true_r. simpl.
    apply orb_true_r.
  - intro Hpre. unfold isFaceAlreadyRegistered.
    rewrite scan_skip_prefix by exact Hpre. simpl.
    rewrite Hmax, (ge_suspected_high _ Hs), Hsv, Hs. reflexivity.
  - apply dup_existing_find.
  - intro Hpre. rewrite dup_existing_find. apply find_app_flagged_prefix. exact Hpre.
Qed.

Lemma duplicate_check_suspected_rule_witness :
  isFaceAlreadyRegistered blobN ([voterCD] ++ voter25 :: [])
  = {| isDuplicate := true; existingVoter := Some voter25;
       dupSimilarity := calculateMaximumSecurityFaceSimilarity blobN (faceData voter25);
       details :=
         DetailsSuspected
           (calculateMaximumSecurityFaceSimilarity blobN (faceData voter25))
           (sizeVariation blobN (faceData voter25)) (name voter25) (voterId voter25) |}
  /\ existingVoter (isFaceAlreadyRegistered blobN ([voter75] ++ voter25 :: []))
     = List.find (flagsDuplicateReg blobN) [voter75].
Proof.
  split.
  - refine (proj1 (proj2 (duplicate_check_suspected_rule blobN [voterCD] [] voter25
                            _ _ _)) _).
    + vm_compute; reflexivity.
    + vm_compute; reflexivity.
    + vm_compute; reflexivity.
    + constructor; [vm_compute; reflexivity | constructor].
  - refine (proj2 (proj2 (proj2 (duplicate_check_suspected_rule blobN [voter75] [] voter25
                                   _ _ _))) _).
    + vm_compute; reflexivity.
    + vm_compute; reflexivity.
    + vm_compute; reflexivity.
    + constructor; vm_compute; reflexivity.
Defined.

(** ** Claim about the authentication service *)

(** C10: whatever the image-quality check and the face matcher, a voter
    found by the credentials who has already voted is refused with the
    already-voted message, and a successful authentication returns the
    found voter, who has not voted. *)
Theorem verifyVoterService_never_reauthorizes
    (faceQualityIsValid : string -> bool) (faceMatches : string -> string -> bool)
    (aadhaar vid nm capturedFace : string) (voters : list Voter) :
  (forall v,
     List.find (credentialsMatch aadhaar vid nm) voters = Some v ->
     hasVoted v = true ->
     verifyVoterService faceQualityIsValid faceMatches aadhaar vid nm capturedFace voters
     = {| success := false; message := msgAlreadyVoted; authVoter := None |})
  /\ (success (verifyVoterService faceQualityIsValid faceMatches
                 aadhaar vid nm capturedFace voters) = true ->
      exists v,
        List.find (credentialsMatch aadhaar vid nm) voters = Some v
        /\ authVoter (verifyVoterService faceQualityIsValid faceMatches
                        aadhaar vid nm capturedFace voters) = Some v
        /\ hasVoted v = false).
Proof.
  unfold verifyVoterService. split.
  - intros v Hfind Hvoted. rewrite Hfind, Hvoted. reflexivity.
  - destruct (List.find (credentialsMatch aadhaar vid nm) voters) as [v |];
      [| discriminate].
    destruct (hasVoted v) eqn:Hvoted; [discriminate |].
    destruct (negb (faceQualityIsValid capturedFace)); [discriminate |].
    destruct (negb (faceMatches (faceData v) capturedFace)); [discriminate |].
    destruct (negb _); [discriminate |].
    intros _. exists v. auto.
Qed.

Lemma verifyVoterService_never_reauthorizes_witness :
  List.find (credentialsMatch "123412341234" "A12345678B" "Asha") [voter25; votedVoter]
  = Some votedVoter
  /\ verifyVoterService (fun _ => true) (fun _ _ => true)
       "123412341234" "A12345678B" "Asha" blobN [voter25; votedVoter]
     = {| success := false; message := msgAlreadyVoted; authVoter := None |}.
Proof.
  assert (Hf : List.find (credentialsMatch "123412341234" "A12345678B" "Asha")
                 [voter25; votedVoter] = Some votedVoter)
    by reflexivity.
  split; [exact Hf |].
  exact (proj1 (verifyVoterService_never_reauthorizes (fun _ => true) (fun _ _ => true)
                  "123412341234" "A12345678B" "Asha" blobN [voter25; votedVoter])
               votedVoter Hf eq_refl).
Defined.

(** * Further properties of the voting context, registration and scoring *)


Lemma find_none_iff {A} (p : A -> bool) (l : list A) :
  List.find p l = None <-> (forall x, In x l -> p x = false).
Proof.
  split; [apply find_none |].
  intro H. destruct (List.find p l) as [x|] eqn:Hf; [| reflexivity].
  apply find_some in Hf as [Hin Hp]. rewrite (H x Hin) in Hp. discriminate.
Qed.

Lemma find_map_pred {A} (p : A -> bool) (f : A -> A) (l : list A) :
  (forall x, p (f x) = p x) ->
  List.find p (map f l) = option_map f (List.find p l).
Proof.
  intro Hp. induction l as [| x l IH]; simpl; [reflexivity |].
  rewrite Hp. destruct (p x); [reflexivity | exact IH].
Qed.

Lemma NoDup_snoc {A} (l : list A) (x : A) :
  NoDup l -> ~ In x l -> NoDup (l ++ [x]).
Proof.
  induction 1 as [| a l Ha Hl IH]; simpl; intro Hx.
  - constructor; [intros [] | constructor].
  - constructor.
    + intro Hin. apply in_app_or in Hin as [Hin | [E | []]]; [contradiction |].
      apply Hx. left. symmetry. exact E.
    + apply IH. intro Hin. apply Hx. right. exact Hin.
Qed.

Lemma iris_check (s : string) (n : nat) :
  0 < n ->
  ((String.eqb s "" || (String.length s <? n)) = false <-> n <= String.length s).
Proof.
  intro Hn. destruct s as [| c r]; simpl.
  - split; [discriminate | lia].
  - rewrite Nat.ltb_ge. reflexivity.
Qed.

Lemma registerVoterService_success_iff (q : string -> FaceQuality)
    (d : VoterInput.t) (vs : list Voter) :
  reg_success (registerVoterService q d vs) = true <->
  validateVoterIdFormat (VoterInput.voterId d) = true
  /\ test_aadhaar (VoterInput.aadhaarNumber d) = true
  /\ fq_isValid (q (VoterInput.faceData d)) = true
  /\ 10000 <= String.length (VoterInput.irisData d)
  /\ (forall v, In v vs -> aadhaarNumber v <> VoterInput.aadhaarNumber d
                          /\ voterId v <> VoterInput.voterId d)
  /\ (forall v, In v vs -> flagsDuplicateReg (VoterInput.faceData d) v = false).
Proof.
  unfold registerVoterService.
  destruct (validateVoterIdFormat (VoterInput.voterId d)); simpl;
    [| split; [discriminate | intuition discriminate]].
  destruct (test_aadhaar (VoterInput.aadhaarNumber d)); simpl;
    [| split; [discriminate | intuition discriminate]].
  destruct (fq_isValid (q (VoterInput.faceData d))); simpl;
    [| split; [discriminate | intuition discriminate]].
  match goal with
  | |- context [if ?c then reg_fail MsgIrisQuality else _] => destruct c eqn:Hi
  end;
  match type of Hi with
  | context [String.length _ <? ?n] =>
      assert (Hn : 0 < n) by (apply Nat.ltb_lt; reflexivity)
  end.
  { simpl. split; [discriminate |]. intros (_ & _ & _ & Hl & _).
    rewrite <- (iris_check _ _ Hn) in Hl. congruence. }
  rewrite (iris_check _ _ Hn) in Hi.
  destruct (List.find (fun v => String.eqb (aadhaarNumber v)
              (VoterInput.aadhaarNumber d)) vs) as [w|] eqn:Ha.
  { simpl. split; [discriminate |]. intros (_ & _ & _ & _ & Hu & _).
    apply find_some in Ha as [Hin Heq]. apply String.eqb_eq in Heq.
    destruct (Hu w Hin) as [Hne _]. contradiction. }
  destruct (List.find (fun v => String.eqb (voterId v)
              (VoterInput.voterId d)) vs) as [w|] eqn:Hv.
  { simpl. split; [discriminate |]. intros (_ & _ & _ & _ & Hu & _).
    apply find_some in Hv as [Hin Heq]. apply String.eqb_eq in Heq.
    destruct (Hu w Hin) as [_ Hne]. contradiction. }
  rewrite find_none_iff in Ha, Hv.
  unfold isFaceAlreadyRegistered.
  destruct (scan_reports_find calculateMaximumSecurityFaceSimilarity
              (VoterInput.faceData d) vs) as [He Hd].
  rewrite He, Hd. unfold flagsDuplicateReg.
  destruct (List.find (flagsDuplicate calculateMaximumSecurityFaceSimilarity
              (VoterInput.faceData d)) vs) as [w|] eqn:Hf.
  - apply find_some in Hf as [Hin Hw].
    assert (Hex : existsb (flagsDuplicate calculateMaximumSecurityFaceSimilarity
                    (VoterInput.faceData d)) vs = true).
    { apply existsb_exists. eauto. }
    rewrite Hex. simpl. split; [discriminate |].
    intros (_ & _ & _ & _ & _ & Hnf). rewrite (Hnf w Hin) in Hw. discriminate.
  - rewrite find_none_iff in Hf.
    split; [intros _ | intros _; destruct (existsb _ vs); reflexivity].
    split; [reflexivity |]. split; [reflexivity |]. split; [reflexivity |].
    split; [exact Hi |]. split; [| exact Hf].
    intros v Hin. split; intro E.
    + specialize (Ha v Hin). rewrite E, String.eqb_refl in Ha. discriminate.
    + specialize (Hv v Hin). rewrite E, String.eqb_refl in Hv. discriminate.
Qed.

Lemma castVote_true_inv (s s' : State) (c vid : string) :
  castVote s c vid = (true, s') ->
  exists v, List.find (fun w => String.eqb (id w) vid) (voters s) = Some v
  /\ hasVoted v = false
  /\ voters s' = map (fun w => if String.eqb (id w) vid then markVoted w else w)
                     (voters s)
  /\ candidates s'
     = map (fun x => if String.eqb (candId x) c then addVote x else x) (candidates s).
Proof.
  unfold castVote.
  destruct (List.find (fun w => String.eqb (id w) vid) (voters s)) as [v|] eqn:Hf;
    [| discriminate].
  destruct (hasVoted v) eqn:Hv; [discriminate |].
  intro H. inversion H; subst. exists v. simpl. auto.
Qed.

Lemma castVote_false_inv (s s' : State) (c vid : string) :
  castVote s c vid = (false, s') -> s' = s.
Proof.
  unfold castVote.
  destruct (List.find (fun w => String.eqb (id w) vid) (voters s)) as [v|];
    [destruct (hasVoted v) |]; intro H; inversion H; reflexivity.
Qed.

Lemma map_markVoted_field {B} (k : Voter -> B) (vid : string) (l : list Voter) :
  (forall w, k (markVoted w) = k w) ->
  map k (map (fun w => if String.eqb (id w) vid then markVoted w else w) l) = map k l.
Proof.
  intro Hk. rewrite map_map. apply map_ext. intro w.
  destruct (String.eqb (id w) vid); [apply Hk | reflexivity].
Qed.

Lemma find_markVoted (p : Voter -> bool) (vid : string) (l : list Voter) :
  (forall w, p (markVoted w) = p w) ->
  List.find p (map (fun w => if String.eqb (id w) vid then markVoted w else w) l)
  = option_map (fun w => if String.eqb (id w) vid then markVoted w else w)
               (List.find p l).
Proof.
  intro Hp. apply find_map_pred. intro w.
  destruct (String.eqb (id w) vid); [apply Hp | reflexivity].
Qed.

Lemma totalVotes_map_addVote (c : string) (cs : list Candidate) :
  totalVotes (map (fun x => if String.eqb (candId x) c then addVote x else x) cs)
  = totalVotes cs + List.length (filter (fun x => String.eqb (candId x) c) cs).
Proof.
  unfold totalVotes. induction cs as [| x cs IH]; simpl; [reflexivity |].
  destruct (String.eqb (candId x) c); simpl; rewrite IH; lia.
Qed.

Lemma find_unique_id (l : list Voter) (v : Voter) :
  NoDup (map id l) -> In v l ->
  List.find (fun w => String.eqb (id w) (id v)) l = Some v.
Proof.
  induction l as [| w l IH]; simpl; [intros _ [] |].
  intros Hnd Hin. inversion Hnd as [| a b Hw Hl]; subst.
  destruct Hin as [<- | Hin]; [rewrite String.eqb_refl; reflexivity |].
  destruct (String.eqb (id w) (id v)) eqn:E.
  - apply String.eqb_eq in E. exfalso. apply Hw. rewrite E. apply in_map. exact Hin.
  - apply IH; assumption.
Qed.

Lemma verifyVoterService_auth (fq : string -> bool) (fm : string -> string -> bool)
    (aadhaar vid nm f : string) (vs : list Voter) (v : Voter) :
  authVoter (verifyVoterService fq fm aadhaar vid nm f vs) = Some v ->
  List.find (credentialsMatch aadhaar vid nm) vs = Some v /\ hasVoted v = false.
Proof.
  unfold verifyVoterService.
  destruct (List.find (credentialsMatch aadhaar vid nm) vs) as [w|]; [| discriminate].
  destruct (hasVoted w) eqn:Hv; [discriminate |].
  destruct (negb (fq f)); [discriminate |].
  destruct (negb (fm (faceData w) f)); [discriminate |].
  destruct (negb _); [discriminate |].
  simpl. intro H. inversion H; subst. auto.
Qed.

Lemma NoDup_map_filter {A B} (k : A -> B) (p : A -> bool) (l : list A) :
  NoDup (map k l) -> NoDup (map k (filter p l)).
Proof.
  induction l as [| a l IH]; simpl; [auto |].
  intro H. inversion H as [| x y Ha Hl]; subst.
  destruct (p a); simpl; [| auto].
  constructor; [| auto].
  intro Hin. apply Ha. apply in_map_iff in Hin as (w & Hw & Hin).
  apply filter_In in Hin as [Hin _]. rewrite <- Hw. apply in_map. exact Hin.
Qed.

Lemma NoDup_map_set {A} (ident k : A -> string) (vid : string) (o : option string)
    (l : list A) :
  NoDup (map ident l) -> NoDup (map k l) ->
  (forall x, o = Some x -> forall w, In w l -> ident w <> vid -> k w <> x) ->
  NoDup (map (fun w => if String.eqb (ident w) vid then override o (k w) else k w) l).
Proof.
  destruct o as [x |].
  2: { intros _ H _. replace (map _ l) with (map k l); [exact H |].
       apply map_ext. intro w. destruct (String.eqb (ident w) vid); reflexivity. }
  intros Hid Hk Hx. specialize (Hx x eq_refl).
  induction l as [| w l IH]; simpl; [constructor |].
  inversion Hid as [| a b Hwid Hlid]; subst.
  inversion Hk as [| a b Hwk Hlk]; subst.
  constructor.
  - intro Hin. apply in_map_iff in Hin as (w' & Heq & Hin).
    destruct (String.eqb (ident w) vid) eqn:E1;
      destruct (String.eqb (ident w') vid) eqn:E2; simpl in Heq.
    + apply String.eqb_eq in E1, E2. apply Hwid. rewrite E1, <- E2.
      apply in_map. exact Hin.
    + apply String.eqb_neq in E2. apply (Hx w' (or_intror Hin) E2). exact Heq.
    + apply String.eqb_neq in E1. apply (Hx w (or_introl eq_refl) E1).
      symmetry. exact Heq.
    + apply Hwk. rewrite <- Heq. apply in_map. exact Hin.
  - apply IH; auto. intros w' Hin. apply Hx. right. exact Hin.
Qed.

Lemma markVoted_shape (w : Voter) : registeredShape (markVoted w) = registeredShape w.
Proof. reflexivity. Qed.

Lemma castVote_roster (s : State) (c vid : string) :
  map aadhaarNumber (voters (snd (castVote s c vid))) = map aadhaarNumber (voters s)
  /\ map voterId (voters (snd (castVote s c vid))) = map voterId (voters s)
  /\ map registeredShape (voters (snd (castVote s c vid)))
     = map registeredShape (voters s).
Proof.
  destruct (castVote s c vid) as [b s'] eqn:E. simpl. destruct b.
  - apply castVote_true_inv in E as (v & _ & _ & Hvs & _). rewrite Hvs.
    repeat split; apply map_markVoted_field; reflexivity.
  - apply castVote_false_inv in E. subst. auto.
Qed.

Lemma Forall_map_bool {A} (p : A -> bool) (l l' : list A) :
  map p l' = map p l -> Forall (fun v => p v = true) l -> Forall (fun v => p v = true) l'.
Proof.
  intros E H. apply Forall_forall. intros x Hx.
  rewrite Forall_forall in H.
  assert (Hin : In (p x) (map p l)) by (rewrite <- E; apply in_map; exact Hx).
  apply in_map_iff in Hin as (y & Hy & Hiny). rewrite <- Hy. apply H. exact Hiny.
Qed.

(** castVote: no second vote for the same voter. *)
(** X11: after a successful [castVote], every further [castVote] by the same voter fails, for any candidate. *)
Theorem castVote_no_double_vote (s s' : State) (c c' vid : string) :
  castVote s c vid = (true, s') -> fst (castVote s' c' vid) = false.
Proof.
  intro H. apply castVote_true_inv in H as (v & Hf & Hv & Hvs & _).
  unfold castVote. rewrite Hvs, find_markVoted by reflexivity. rewrite Hf. simpl.
  apply find_some in Hf as [_ Hid]. rewrite Hid. reflexivity.
Qed.

(** X12: a successful [castVote] raises the total vote count by the number of candidates carrying the given candidate id. *)
Theorem castVote_tally (s s' : State) (c vid : string) :
  castVote s c vid = (true, s') ->
  totalVotes (candidates s')
  = totalVotes (candidates s)
    + List.length (filter (fun x => String.eqb (candId x) c) (candidates s)).
Proof.
  intro H. apply castVote_true_inv in H as (v & _ & _ & _ & Hcs).
  rewrite Hcs. apply totalVotes_map_addVote.
Qed.

(** X13: a successful [castVote] for a candidate id that no candidate has leaves the candidates unchanged, but the voter is still marked as having voted. *)
Theorem castVote_unknown_candidate (s s' : State) (c vid : string) :
  ~ In c (map candId (candidates s)) ->
  castVote s c vid = (true, s') ->
  candidates s' = candidates s
  /\ exists v, In v (voters s') /\ id v = vid /\ hasVoted v = true.
Proof.
  intros Hc H. apply castVote_true_inv in H as (v & Hf & _ & Hvs & Hcs). split.
  - rewrite Hcs. rewrite <- map_id. apply map_ext_in. intros x Hx.
    destruct (String.eqb (candId x) c) eqn:E; [| reflexivity].
    apply String.eqb_eq in E. exfalso. apply Hc. rewrite <- E. apply in_map. exact Hx.
  - apply find_some in Hf as [Hin Hid]. exists (markVoted v). rewrite Hvs.
    split; [| split; [apply String.eqb_eq; exact Hid | reflexivity]].
    apply in_map_iff. exists v. rewrite Hid. auto.
Qed.

(** X14: [castVote] keeps the roster invariant of X8. *)
Theorem castVote_preserves_roster (s : State) (c vid : string) :
  rosterInvariant (voters s) -> rosterInvariant (voters (snd (castVote s c vid))).
Proof.
  destruct (castVote_roster s c vid) as (Ha & Hv & Hs).
  intros ((Hua & Huv) & Hf). split; [split |].
  - rewrite Ha. exact Hua.
  - rewrite Hv. exact Huv.
  - exact (Forall_map_bool registeredShape _ _ Hs Hf).
Qed.

(** X15: if voter ids are distinct and [verifyVoter] authenticates a voter, that voter's [castVote] succeeds, and the same verification afterwards fails with the already-voted message. *)
Theorem verify_vote_verify (fq : string -> bool) (fm : string -> string -> bool)
    (s : State) (aadhaar vid nm f c : string) (v : Voter) :
  NoDup (map id (voters s)) ->
  authVoter (verifyVoter fq fm s aadhaar vid nm f) = Some v ->
  fst (castVote s c (id v)) = true
  /\ message (verifyVoter fq fm (snd (castVote s c (id v))) aadhaar vid nm f)
     = msgAlreadyVoted.
Proof.
  intros Hnd Ha. unfold verifyVoter in *.
  apply verifyVoterService_auth in Ha as [Hf Hv].
  pose proof (find_some _ _ Hf) as [Hin _].
  unfold castVote. rewrite (find_unique_id _ _ Hnd Hin), Hv. simpl.
  split; [reflexivity |].
  unfold verifyVoterService. rewrite find_markVoted by reflexivity. rewrite Hf.
  simpl. rewrite String.eqb_refl. reflexivity.
Qed.

(** X16: after [deleteVoter], the deleted voter id can neither vote nor be deleted again. *)
Theorem deleteVoter_then_absent (s : State) (vid c : string) :
  fst (castVote (snd (deleteVoter s vid)) c vid) = false
  /\ op_success (fst (deleteVoter (snd (deleteVoter s vid)) vid)) = false.
Proof.
  assert (Hnone : List.find (fun v => String.eqb (id v) vid)
                    (voters (snd (deleteVoter s vid))) = None).
  { apply find_none_iff. intros x Hx. unfold deleteVoter in Hx.
    destruct (List.find _ (voters s)) as [w|] eqn:Hf.
    - simpl in Hx. apply filter_In in Hx as [_ Hx].
      destruct (String.eqb (id x) vid); [discriminate | reflexivity].
    - apply find_none_iff with (x := x) in Hf; assumption. }
  unfold castVote at 1. rewrite Hnone. split; [reflexivity |].
  unfold deleteVoter at 1. rewrite Hnone. reflexivity.
Qed.

(** X17: [deleteVoter] keeps the roster invariant of X8. *)
Theorem deleteVoter_preserves_roster (s : State) (vid : string) :
  rosterInvariant (voters s) -> rosterInvariant (voters (snd (deleteVoter s vid))).
Proof.
  unfold deleteVoter. destruct (List.find _ (voters s)); [| auto].
  intros ((Hua & Huv) & Hf). simpl. split; [split |].
  - apply NoDup_map_filter. exact Hua.
  - apply NoDup_map_filter. exact Huv.
  - apply Forall_forall. intros x Hx. apply filter_In in Hx as [Hx _].
    rewrite Forall_forall in Hf. apply Hf. exact Hx.
Qed.

(** X8: [registerVoter] keeps the roster invariant: Aadhaar numbers and voter IDs stay pairwise distinct, and every voter has a valid voter ID, a 12-digit Aadhaar number and iris data of at least 10000 characters. *)
Theorem registerVoter_preserves_roster (q : string -> FaceQuality) (s : State)
    (d : VoterInput.t) (newId : string) :
  rosterInvariant (voters s) ->
  rosterInvariant (voters (snd (registerVoter q s d newId))).
Proof.
  intros ((Hua & Huv) & Hf). unfold registerVoter.
  destruct (reg_success (registerVoterService q d (voters s))) eqn:E;
    [| simpl; split; [split |]; assumption].
  apply registerVoterService_success_iff in E as (Hvf & Hta & _ & Hir & Hu & _).
  simpl. split; [split |].
  - rewrite map_app. apply NoDup_snoc; [exact Hua |].
    intro Hin. apply in_map_iff in Hin as (w & Hw & Hin).
    apply (proj1 (Hu w Hin)). exact Hw.
  - rewrite map_app. apply NoDup_snoc; [exact Huv |].
    intro Hin. apply in_map_iff in Hin as (w & Hw & Hin).
    apply (proj2 (Hu w Hin)). exact Hw.
  - apply Forall_app. split; [exact Hf |]. constructor; [| constructor].
    unfold registeredShape, newVoter; cbn [voterId aadhaarNumber irisData].
    rewrite Hvf, Hta. apply Nat.leb_le. exact Hir.
Qed.

Lemma updateVoter_field {B} (k : Voter -> B) (vid : string) (u : VoterUpdate)
    (ku : VoterUpdate -> option B) (l : list Voter) :
  (forall v, k (applyUpdate u v) = override (ku u) (k v)) ->
  map k (map (fun v => if String.eqb (id v) vid then applyUpdate u v else v) l)
  = map (fun v => if String.eqb (id v) vid then override (ku u) (k v) else k v) l.
Proof.
  intro Hk. rewrite map_map. apply map_ext. intro v.
  destruct (String.eqb (id v) vid); [apply Hk | reflexivity].
Qed.

Lemma truthy_some (o : option string) :
  (forall x, o = Some x -> x <> "") -> truthy o = false -> o = None.
Proof.
  destruct o as [x |]; [| reflexivity]. intros H Ht. exfalso.
  apply (H x eq_refl). unfold truthy in Ht. apply negb_false_iff in Ht.
  apply String.eqb_eq. exact Ht.
Qed.

(** X18: when voter ids are distinct and the update sets no empty Aadhaar number or voter ID, [updateVoter] keeps Aadhaar numbers and voter IDs pairwise distinct. *)
Theorem updateVoter_preserves_unique (s : State) (vid : string) (u : VoterUpdate) :
  NoDup (map id (voters s)) ->
  uniqueCredentials (voters s) ->
  (forall x, upd_aadhaarNumber u = Some x -> x <> "") ->
  (forall x, upd_voterId u = Some x -> x <> "") ->
  uniqueCredentials (voters (snd (updateVoter s vid u))).
Proof.
  intros Hid (Hua & Huv) Ha Hv. unfold updateVoter.
  destruct (List.find (fun v => String.eqb (id v) vid) (voters s)); [| split; assumption].
  destruct ((truthy (upd_aadhaarNumber u) || truthy (upd_voterId u))
            && match List.find (clashesWithUpdate vid u) (voters s) with
               | Some _ => true | None => false end) eqn:G;
    [split; assumption |].
  assert (Hno : forall w, In w (voters s) -> id w <> vid ->
            (forall x, upd_aadhaarNumber u = Some x -> aadhaarNumber w <> x)
            /\ (forall x, upd_voterId u = Some x -> voterId w <> x)).
  { intros w Hin Hw. apply andb_false_iff in G as [G | G].
    - apply orb_false_iff in G as [G1 G2].
      rewrite (truthy_some _ Ha G1), (truthy_some _ Hv G2).
      split; discriminate.
    - destruct (List.find (clashesWithUpdate vid u) (voters s)) eqn:Hf;
        [discriminate |].
      pose proof (find_none _ _ Hf w Hin) as Hc. unfold clashesWithUpdate in Hc.
      apply String.eqb_neq in Hw. rewrite Hw in Hc. simpl in Hc.
      apply orb_false_iff in Hc as [C1 C2]. split; intros x Hx E.
      + rewrite Hx in C1. simpl in C1. rewrite E, String.eqb_refl, andb_true_r in C1.
        apply (Ha x Hx). apply String.eqb_eq, negb_false_iff. exact C1.
      + rewrite Hx in C2. simpl in C2. rewrite E, String.eqb_refl, andb_true_r in C2.
        apply (Hv x Hx). apply String.eqb_eq, negb_false_iff. exact C2. }
  simpl. split.
  - rewrite (updateVoter_field aadhaarNumber vid u upd_aadhaarNumber) by reflexivity.
    apply NoDup_map_set; [exact Hid | exact Hua |].
    intros x Hx w Hin Hw. apply (proj1 (Hno w Hin Hw)). exact Hx.
  - rewrite (updateVoter_field voterId vid u upd_voterId) by reflexivity.
    apply NoDup_map_set; [exact Hid | exact Huv |].
    intros x Hx w Hin Hw. apply (proj2 (Hno w Hin Hw)). exact Hx.
Qed.

Lemma length_append_char (s : string) (c : ascii) :
  String.length (s ++ String c EmptyString) = S (String.length s).
Proof. induction s as [| a s IH]; simpl; [reflexivity | rewrite IH; reflexivity]. Qed.

Lemma get_append_last (s : string) (c : ascii) :
  String.get (String.length s) (s ++ String c EmptyString) = Some c.
Proof. induction s as [| a s IH]; simpl; [reflexivity | exact IH]. Qed.

(** X5: [validateVoterIdFormat] rejects every string whose last character is not an ASCII digit. *)
Theorem validateVoterIdFormat_last_not_digit (s : string) (c : ascii) :
  is_ascii_digit c = false ->
  validateVoterIdFormat (s ++ String c EmptyString) = false.
Proof.
  intro Hc. unfold validateVoterIdFormat. rewrite length_append_char.
  destruct (S (String.length s) =? 10) eqn:L; simpl; [| reflexivity].
  apply Nat.eqb_eq in L. injection L as L.
  unfold charAt at 2. rewrite <- L, get_append_last. simpl. rewrite Hc.
  apply andb_false_r.
Qed.

Lemma ge_threshold_suspected (s : JsNum.t) :
  JsNum.ge s MAXIMUM_SECURITY_THRESHOLD = true ->
  JsNum.ge s SUSPECTED_SIMILARITY = true.
Proof. apply ge_fin_mono. unfold Qle; simpl; lia. Qed.

Lemma scan_report (similarityOf : string -> string -> JsNum.t) (face : string)
    (vs : list Voter) :
  (isDuplicate (duplicate_scan similarityOf face vs) = true ->
   exists v, existingVoter (duplicate_scan similarityOf face vs) = Some v
   /\ In v vs
   /\ dupSimilarity (duplicate_scan similarityOf face vs) = similarityOf face (faceData v)
   /\ JsNum.ge (dupSimilarity (duplicate_scan similarityOf face vs))
        SUSPECTED_SIMILARITY = true)
  /\ (isDuplicate (duplicate_scan similarityOf face vs) = false ->
      duplicate_scan similarityOf face vs = noDuplicate).
Proof.
  induction vs as [| v rest IH]; simpl; [split; [discriminate | reflexivity] |].
  destruct (JsNum.ge (similarityOf face (faceData v)) MAXIMUM_SECURITY_THRESHOLD) eqn:H1.
  { simpl. split; [| discriminate]. intros _. exists v.
    split; [reflexivity |]. split; [left; reflexivity |]. split; [reflexivity |].
    apply ge_threshold_suspected. exact H1. }
  destruct IH as [IH1 IH2].
  assert (Hrest : (isDuplicate (duplicate_scan similarityOf face rest) = true ->
   exists w, existingVoter (duplicate_scan similarityOf face rest) = Some w
   /\ In w (v :: rest)
   /\ dupSimilarity (duplicate_scan similarityOf face rest) = similarityOf face (faceData w)
   /\ JsNum.ge (dupSimilarity (duplicate_scan similarityOf face rest))
        SUSPECTED_SIMILARITY = true)).
  { intro H. destruct (IH1 H) as (w & Hw & Hin & Hs & Hg).
    exists w. split; [exact Hw |]. split; [right; exact Hin |]. auto. }
  destruct (JsNum.ge (similarityOf face (faceData v)) HIGH_SIMILARITY); [| auto].
  destruct (JsNum.lt (sizeVariation face (faceData v)) MAX_SIZE_VARIATION
            && JsNum.ge (similarityOf face (faceData v)) SUSPECTED_SIMILARITY) eqn:H2;
    [| auto].
  apply andb_true_iff in H2 as [_ H2]. simpl. split; [| discriminate].
  intros _. exists v. split; [reflexivity |]. split; [left; reflexivity |].
  split; [reflexivity | exact H2].
Qed.

(** X4: when [isFaceAlreadyRegistered] reports a duplicate, the reported voter is on the roster, the reported similarity is that voter's score against the captured face, and it is at least the suspected threshold 0.40; when it reports none, the result is the fixed no-duplicate record. *)
Theorem isFaceAlreadyRegistered_report (face : string) (vs : list Voter) :
  (isDuplicate (isFaceAlreadyRegistered face vs) = true ->
   exists v, existingVoter (isFaceAlreadyRegistered face vs) = Some v
   /\ In v vs
   /\ dupSimilarity (isFaceAlreadyRegistered face vs)
      = calculateMaximumSecurityFaceSimilarity face (faceData v)
   /\ JsNum.ge (dupSimilarity (isFaceAlreadyRegistered face vs))
        SUSPECTED_SIMILARITY = true)
  /\ (isDuplicate (isFaceAlreadyRegistered face vs) = false ->
      isFaceAlreadyRegistered face vs = noDuplicate).
Proof. apply scan_report. Qed.

(** X7: [registerVoterService] refuses any registration whose face data is exactly the face data of a voter already on the roster. *)
Theorem registerVoterService_refuses_enrolled_face (q : string -> FaceQuality)
    (d : VoterInput.t) (vs : list Voter) (v : Voter) :
  In v vs -> faceData v = VoterInput.faceData d ->
  reg_success (registerVoterService q d vs) = false.
Proof.
  intros Hin Hf. destruct (reg_success _) eqn:E; [| reflexivity].
  apply registerVoterService_success_iff in E as (_ & _ & _ & _ & _ & Hn).
  specialize (Hn v Hin). unfold flagsDuplicateReg, flagsDuplicate in Hn.
  rewrite Hf in Hn. unfold calculateMaximumSecurityFaceSimilarity in Hn.
  rewrite strict_refl, ge_one_dup in Hn. discriminate.
Qed.

(** X19: [updateCandidate] leaves every vote count and the voters unchanged, and [addCandidate] leaves the total vote count and the voters unchanged. *)
Theorem candidate_ops_keep_votes (s : State) (candidateId newId : string)
    (u d : CandidateInput.t) :
  map voteCount (candidates (snd (updateCandidate s candidateId u)))
  = map voteCount (candidates s)
  /\ voters (snd (updateCandidate s candidateId u)) = voters s
  /\ totalVotes (candidates (addCandidate s d newId)) = totalVotes (candidates s)
  /\ voters (addCandidate s d newId) = voters s.
Proof.
  split; [| split; [| split; [| reflexivity]]].
  - unfold updateCandidate.
    destruct (List.find _ (candidates s)); [| reflexivity].
    destruct (List.find _ (candidates s)); [reflexivity |].
    simpl. rewrite map_map. apply map_ext. intro x.
    destruct (String.eqb (candId x) candidateId); reflexivity.
  - unfold updateCandidate.
    destruct (List.find _ (candidates s)); [| reflexivity].
    destruct (List.find _ (candidates s)); reflexivity.
  - unfold addCandidate, totalVotes. simpl. rewrite fold_right_app. simpl.
    generalize (candidates s). induction l as [| c l IH]; simpl; [reflexivity | lia].
Qed.

(** X20: when candidate ids, normalised names (lower-cased and trimmed) and symbols are pairwise distinct, [updateCandidate] keeps names and symbols pairwise distinct. *)
Theorem updateCandidate_keeps_distinct (s : State) (candidateId : string)
    (u : CandidateInput.t) :
  NoDup (map candId (candidates s)) ->
  NoDup (map (fun c => candidateKey (candName c)) (candidates s)) ->
  NoDup (map symbol (candidates s)) ->
  NoDup (map (fun c => candidateKey (candName c))
           (candidates (snd (updateCandidate s candidateId u))))
  /\ NoDup (map symbol (candidates (snd (updateCandidate s candidateId u)))).
Proof.
  intros Hid Hk Hs. unfold updateCandidate.
  destruct (List.find _ (candidates s)) as [c0 |]; [| auto].
  destruct (List.find (clashesWithCandidate candidateId u) (candidates s)) eqn:Hf;
    [auto |].
  simpl. rewrite !map_map.
  assert (Hno : forall c, In c (candidates s) -> candId c <> candidateId ->
            candidateKey (candName c) <> candidateKey (CandidateInput.name u)
            /\ symbol c <> CandidateInput.symbol u).
  { intros c Hin Hc. pose proof (find_none _ _ Hf c Hin) as H.
    unfold clashesWithCandidate in H. apply String.eqb_neq in Hc. rewrite Hc in H.
    simpl in H. apply orb_false_iff in H as [H1 H2].
    split; apply String.eqb_neq; assumption. }
  split.
  - replace (map _ (candidates s)) with
      (map (fun c => if String.eqb (candId c) candidateId
                     then override (Some (candidateKey (CandidateInput.name u)))
                            (candidateKey (candName c))
                     else candidateKey (candName c)) (candidates s)).
    + apply NoDup_map_set; [exact Hid | exact Hk |].
      intros x Hx c Hin Hc. injection Hx as <-. apply (proj1 (Hno c Hin Hc)).
    + apply map_ext. intro c. destruct (String.eqb (candId c) candidateId); reflexivity.
  - replace (map _ (candidates s)) with
      (map (fun c => if String.eqb (candId c) candidateId
                     then override (Some (CandidateInput.symbol u)) (symbol c)
                     else symbol c) (candidates s)).
    + apply NoDup_map_set; [exact Hid | exact Hs |].
      intros x Hx c Hin Hc. injection Hx as <-. apply (proj2 (Hno c Hin Hc)).
    + apply map_ext. intro c. destruct (String.eqb (candId c) candidateId); reflexivity.
Qed.

Lemma find_app {A} (p : A -> bool) (l1 l2 : list A) :
  List.find p (l1 ++ l2)
  = match List.find p l1 with Some x => Some x | None => List.find p l2 end.
Proof.
  induction l1 as [| a l1 IH]; simpl; [reflexivity |].
  destruct (p a); [reflexivity | exact IH].
Qed.

Lemma registerVoter_success_inv (q : string -> FaceQuality) (s : State)
    (d : VoterInput.t) (newId : string) :
  reg_success (fst (registerVoter q s d newId)) = true ->
  reg_success (registerVoterService q d (voters s)) = true
  /\ snd (registerVoter q s d newId)
     = with_voters s (voters s ++ [newVoter d newId]).
Proof.
  unfold registerVoter.
  destruct (reg_success (registerVoterService q d (voters s))) eqn:E; simpl;
    [auto | rewrite E; discriminate].
Qed.

(** X9: after a successful [registerVoter], [verifyVoter] with the registered credentials and a face that passes quality and matches the registered face authenticates exactly the new voter. *)
Theorem registerVoter_then_verify (q : string -> FaceQuality)
    (fq : string -> bool) (fm : string -> string -> bool) (s : State)
    (d : VoterInput.t) (newId f : string) :
  reg_success (fst (registerVoter q s d newId)) = true ->
  fq f = true -> fm (VoterInput.faceData d) f = true ->
  verifyVoter fq fm (snd (registerVoter q s d newId))
    (VoterInput.aadhaarNumber d) (VoterInput.voterId d) (VoterInput.name d) f
  = {| success := true; message := msgSuccess; authVoter := Some (newVoter d newId) |}.
Proof.
  intros Hr Hq Hm. apply registerVoter_success_inv in Hr as [Hs Hst].
  apply registerVoterService_success_iff in Hs as (_ & _ & _ & _ & Hu & _).
  rewrite Hst. unfold verifyVoter, verifyVoterService. simpl.
  rewrite find_app.
  replace (List.find _ (voters s)) with (@None Voter).
  2: { symmetry. apply find_none_iff. intros v Hin. unfold credentialsMatch.
       destruct (String.eqb (aadhaarNumber v) (VoterInput.aadhaarNumber d)) eqn:E;
         [| reflexivity].
       apply String.eqb_eq in E. destruct (Hu v Hin) as [Hn _]. contradiction. }
  unfold credentialsMatch, newVoter. simpl. rewrite !String.eqb_refl. simpl.
  rewrite Hq, Hm. simpl. rewrite !String.eqb_refl. reflexivity.
Qed.

(** X10: after a successful [registerVoter], a second registration that reuses the Aadhaar number or the voter ID is refused. *)
Theorem registerVoter_credentials_taken (q : string -> FaceQuality) (s : State)
    (d d' : VoterInput.t) (newId newId' : string) :
  reg_success (fst (registerVoter q s d newId)) = true ->
  VoterInput.aadhaarNumber d' = VoterInput.aadhaarNumber d
  \/ VoterInput.voterId d' = VoterInput.voterId d ->
  reg_success (fst (registerVoter q (snd (registerVoter q s d newId)) d' newId'))
  = false.
Proof.
  intros Hr Hd. apply registerVoter_success_inv in Hr as [_ Hst]. rewrite Hst.
  unfold registerVoter. simpl.
  destruct (reg_success (registerVoterService q d' (voters s ++ [newVoter d newId])))
    eqn:E; [| simpl; exact E].
  apply registerVoterService_success_iff in E as (_ & _ & _ & _ & Hu & _).
  destruct (Hu (newVoter d newId)) as [Ha Hv];
    [apply in_or_app; right; left; reflexivity |].
  simpl in Ha, Hv. destruct Hd as [Hd | Hd]; congruence.
Qed.


(** ** The strict score is NaN or lies in [0, 1] *)

Section ScoreBounds.

Import JsNum.

Ltac jsimpl := cbn -[Qle Qlt Qred Qplus Qmult Qopp Qminus Qdiv Qinv Qabs inject_Z Qeq_bool Qle_bool] in *.

Lemma add_fin (x y : Q) : add (Fin x) (Fin y) = Fin (Qred (x + y)).
Proof. reflexivity. Qed.

Lemma sub_fin (x y : Q) : sub (Fin x) (Fin y) = Fin (Qred (x + - y)).
Proof. reflexivity. Qed.

Lemma mul_fin (x y : Q) : mul (Fin x) (Fin y) = Fin (Qred (x * y)).
Proof. reflexivity. Qed.

Lemma div_fin (x y : Q) :
  div (Fin x) (Fin y)
  = if qzero y then (if qzero x then NaN else Inf (qpos x)) else Fin (Qred (x / y)).
Proof. reflexivity. Qed.

Lemma of_nat_fin (n : nat) : of_nat n = Fin (inject_Z (Z.of_nat n)).
Proof. reflexivity. Qed.

Lemma nw_weaken (lo hi lo' hi' : Q) (x : t) :
  (lo' <= lo)%Q -> (hi <= hi')%Q -> nan_or_within lo hi x -> nan_or_within lo' hi' x.
Proof. destruct x; jsimpl; auto. intros. lra. Qed.

Lemma nw_add (a1 b1 a2 b2 : Q) (x y : t) :
  nan_or_within a1 b1 x -> nan_or_within a2 b2 y ->
  nan_or_within (a1 + a2) (b1 + b2) (add x y).
Proof.
  destruct x, y; jsimpl; try tauto.
  intros. rewrite Qred_correct. lra.
Qed.

Lemma nw_mul_c (lo hi c : Q) (x : t) :
  (0 <= c)%Q -> nan_or_within lo hi x ->
  nan_or_within (lo * c) (hi * c) (mul x (Fin c)).
Proof.
  intro Hc. destruct x; jsimpl; try tauto.
  intros [H1 H2]. rewrite Qred_correct.
  split; apply Qmult_le_compat_r; assumption.
Qed.

Lemma nw_max_c (c lo hi : Q) (x : t) :
  (c <= hi)%Q -> nan_or_within lo hi x -> nan_or_within c hi (max (Fin c) x).
Proof.
  intro Hc. destruct x as [q | | p]; jsimpl; try tauto.
  intros [H1 H2]. unfold qlt. destruct (Qle_bool q c) eqn:E; simpl.
  - split; lra.
  - split; [| exact H2]. apply Qlt_le_weak, Qnot_le_lt.
    intro H. apply Qle_bool_iff in H. congruence.
Qed.

Lemma nw_max (lo hi : Q) (x y : t) :
  nan_or_within lo hi x -> nan_or_within lo hi y -> nan_or_within lo hi (max x y).
Proof.
  destruct x as [q | | p], y as [r | | p']; jsimpl; try tauto.
  destruct (qlt q r); auto.
Qed.

Lemma qn_nonneg (n : nat) : (0 <= inject_Z (Z.of_nat n))%Q.
Proof. change 0%Q with (inject_Z 0). rewrite <- Zle_Qle. lia. Qed.

Lemma qn_succ (n : nat) :
  inject_Z (Z.of_nat (S n)) == inject_Z (Z.of_nat n) + 1.
Proof. rewrite Nat2Z.inj_succ, <- Z.add_1_r, inject_Z_plus. reflexivity. Qed.

Lemma qn_le (m n : nat) : m <= n -> (inject_Z (Z.of_nat m) <= inject_Z (Z.of_nat n))%Q.
Proof. intro H. rewrite <- Zle_Qle. lia. Qed.

Lemma qzero_true (x : Q) : qzero x = true -> x == 0.
Proof. unfold qzero. apply Qeq_bool_iff. Qed.

Lemma qzero_false (x : Q) : qzero x = false -> ~ x == 0.
Proof. unfold qzero. intros H E. apply Qeq_bool_iff in E. congruence. Qed.

(** Dividing a total by the number of its terms. *)
Lemma nw_div_nat (x : t) (n : nat) :
  nan_or_within 0 (inject_Z (Z.of_nat n)) x -> nan_or_within 0 1 (div x (of_nat n)).
Proof.
  destruct x as [q | | p]; jsimpl; try tauto. intros [H1 H2].
  pose proof (qn_nonneg n) as Hn.
  destruct (qzero (inject_Z (Z.of_nat n))) eqn:Ez.
  - apply qzero_true in Ez. destruct (qzero q) eqn:Eq; jsimpl; [exact I |].
    apply qzero_false in Eq. exfalso. apply Eq. lra.
  - apply qzero_false in Ez. jsimpl. rewrite Qred_correct.
    assert (Hp : (0 < inject_Z (Z.of_nat n))%Q).
    { apply Qle_lt_or_eq in Hn as [Hn | Hn]; [exact Hn | exfalso; apply Ez; lra]. }
    split.
    + apply Qle_shift_div_l; [exact Hp | lra].
    + apply Qle_shift_div_r; [exact Hp | lra].
Qed.

Lemma count_matches_le (n : nat) (s1 s2 : string) : count_matches n s1 s2 <= n.
Proof.
  revert s1 s2. induction n as [| n IH]; intros s1 s2; jsimpl; [lia |].
  specialize (IH (match s1 with EmptyString => EmptyString | String _ r => r end)
                 (match s2 with EmptyString => EmptyString | String _ r => r end)).
  destruct (opt_ascii_eqb _ _); lia.
Qed.

Lemma nw_ratio (m n : nat) : m <= n -> nan_or_within 0 1 (div (of_nat m) (of_nat n)).
Proof.
  intro H. apply nw_div_nat. jsimpl. split; [apply qn_nonneg | apply qn_le; exact H].
Qed.

Lemma nw_of_nat_01 (n : nat) : n <= 1 -> nan_or_within 0 1 (of_nat n).
Proof.
  intro H. jsimpl. split; [apply qn_nonneg |]. apply (qn_le n 1). exact H.
Qed.

(** [1 - num / den] with [0 <= num <= k * den]. *)
Lemma nw_one_minus_ratio (num den k : Q) :
  (0 <= num)%Q -> (0 <= den)%Q -> (num <= k * den)%Q ->
  nan_or_within (1 - k) 1 (sub (of_nat 1) (div (Fin num) (Fin den))).
Proof.
  intros Hn Hd Hk. rewrite div_fin.
  destruct (qzero den) eqn:Ez.
  - apply qzero_true in Ez.
    assert (Hz : qzero num = true).
    { unfold qzero. apply Qeq_bool_iff. rewrite Ez, Qmult_0_r in Hk. lra. }
    rewrite Hz. exact I.
  - apply qzero_false in Ez.
    assert (Hp : (0 < den)%Q).
    { apply Qle_lt_or_eq in Hd as [Hd | Hd]; [exact Hd | exfalso; apply Ez; lra]. }
    assert (H0 : (0 <= num / den)%Q) by (apply Qle_shift_div_l; [exact Hp | lra]).
    assert (H1 : (num / den <= k)%Q) by (apply Qle_shift_div_r; assumption).
    rewrite of_nat_fin, sub_fin. unfold nan_or_within. rewrite !Qred_correct.
    change (inject_Z (Z.of_nat 1)) with 1%Q. split; lra.
Qed.

Lemma nw_div_two (lo hi : Q) (x : t) :
  nan_or_within lo hi x ->
  nan_or_within (lo * (1 # 2)) (hi * (1 # 2)) (div x (of_nat 2)).
Proof.
  destruct x as [q | | p]; [| intros _; exact I | intros []].
  intros [H1 H2]. rewrite of_nat_fin, div_fin.
  change (qzero (inject_Z (Z.of_nat 2))) with false. cbv beta iota.
  unfold nan_or_within. rewrite Qred_correct.
  change (inject_Z (Z.of_nat 2)) with (2 # 1). unfold Qdiv.
  change (/ (2 # 1))%Q with (1 # 2).
  split; apply Qmult_le_compat_r; (assumption || (unfold Qle; simpl; lia)).
Qed.

(** [lengthSimilarity] lies in [[0.5, 1]] or is NaN. *)
Lemma lengthSimilarity_bound (d1 d2 : string) :
  nan_or_within (5 # 10) 1 (Strict.lengthSimilarity d1 d2).
Proof.
  unfold Strict.lengthSimilarity, lit.
  apply nw_max_c with (lo := (1 - 2)%Q); [unfold Qle; simpl; lia |].
  rewrite !of_nat_fin.
  set (A := inject_Z (Z.of_nat (String.length d1))).
  set (B := inject_Z (Z.of_nat (String.length d2))).
  assert (HA : (0 <= A)%Q) by apply qn_nonneg.
  assert (HB : (0 <= B)%Q) by apply qn_nonneg.
  clearbody A B.
  change (abs (sub (Fin A) (Fin B))) with (Fin (Qabs (Qred (A + - B)))).
  change (div (add (Fin A) (Fin B)) (Fin (inject_Z (Z.of_nat 2))))
    with (Fin (Qred (Qred (A + B) / inject_Z (Z.of_nat 2)))).
  apply nw_one_minus_ratio.
  - apply Qabs_nonneg.
  - rewrite Qred_correct. unfold Qdiv.
    change (/ inject_Z (Z.of_nat 2))%Q with (1 # 2). rewrite Qred_correct.
    apply Qmult_le_0_compat; [lra | unfold Qle; simpl; lia].
  - rewrite !Qred_correct. unfold Qdiv.
    change (/ inject_Z (Z.of_nat 2))%Q with (1 # 2).
    apply Qabs_Qle_condition.
    setoid_replace (2 * ((A + B) * (1 # 2)))%Q with (A + B)%Q by ring.
    split; lra.
Qed.

Lemma pattern_loop_bound (d1 d2 : string) (ss fuel i : nat) (tot : t) (n : nat) :
  nan_or_within 0 (inject_Z (Z.of_nat n)) tot ->
  nan_or_within 0 (inject_Z (Z.of_nat (snd (Strict.pattern_loop d1 d2 ss fuel i tot n))))
    (fst (Strict.pattern_loop d1 d2 ss fuel i tot n)).
Proof.
  revert i tot n. induction fuel as [| fuel IH]; intros i tot n H; jsimpl; [exact H |].
  destruct (_ <=? _); [exact H |]. apply IH.
  eapply nw_weaken; [| | apply nw_add; [exact H | apply nw_ratio, count_matches_le]].
  - lra.
  - rewrite qn_succ. lra.
Qed.

Lemma analyzeImagePatterns_bound (d1 d2 : string) :
  nan_or_within 0 1 (Strict.analyzeImagePatterns d1 d2).
Proof.
  unfold Strict.analyzeImagePatterns.
  match goal with |- context [Strict.pattern_loop ?a ?b ?c ?d ?e ?f ?g] =>
    pose proof (pattern_loop_bound a b c d e f g) as H;
    destruct (Strict.pattern_loop a b c d e f g) as [tot n] end.
  destruct (0 <? n).
  - apply nw_div_nat. apply H. split; apply Qle_refl.
  - apply nw_of_nat_01. lia.
Qed.

Lemma window_loop_bound (d1 d2 : string) (maxLength fuel i : nat) (tot best : t)
    (n : nat) :
  nan_or_within 0 (inject_Z (Z.of_nat n)) tot -> nan_or_within 0 1 best ->
  let '(tot', best', n') := Strict.window_loop d1 d2 maxLength fuel i tot best n in
  nan_or_within 0 (inject_Z (Z.of_nat n')) tot' /\ nan_or_within 0 1 best'.
Proof.
  revert i tot best n.
  induction fuel as [| fuel IH]; intros i tot best n Ht Hb; jsimpl; [auto |].
  destruct (_ && _); [| auto].
  assert (Hw : nan_or_within 0 1
                 (div (of_nat (count_matches Strict.windowSize
                                (js_substring d1 i (i + Strict.windowSize))
                                (js_substring d2 i (i + Strict.windowSize))))
                      (of_nat Strict.windowSize)))
    by (apply nw_ratio, count_matches_le).
  apply IH.
  - eapply nw_weaken; [| | apply nw_add; [exact Ht | exact Hw]]; [lra |].
    rewrite qn_succ. lra.
  - apply nw_max; assumption.
Qed.

Lemma strictSlidingWindow_bound (d1 d2 : string) :
  nan_or_within 0 1 (Strict.strictSlidingWindow d1 d2).
Proof.
  unfold Strict.strictSlidingWindow.
  match goal with |- context [Strict.window_loop ?a ?b ?c ?d ?e ?f ?g ?h] =>
    pose proof (window_loop_bound a b c d e f g h) as H;
    destruct (Strict.window_loop a b c d e f g h) as [[tot best] n] end.
  destruct H as [Ht Hb]; [split; apply Qle_refl | apply nw_of_nat_01; lia |].
  assert (Ha : nan_or_within 0 1 (if 0 <? n then div tot (of_nat n) else of_nat 0)).
  { destruct (0 <? n); [apply nw_div_nat; exact Ht | apply nw_of_nat_01; lia]. }
  unfold lit.
  eapply nw_weaken; [| |
    apply nw_add; apply nw_mul_c; [| exact Ha | | exact Hb]];
    unfold Qle; simpl; lia.
Qed.

(** The means and variances of [getStats]. *)
Lemma char_codes_nonneg (s : string) : Forall (fun z => (0 <= z)%Z) (char_codes s).
Proof. induction s as [| c s IH]; jsimpl; constructor; [lia | exact IH]. Qed.

Lemma fold_sum_nonneg (l : list Z) (q : Q) :
  Forall (fun z => (0 <= z)%Z) l -> (0 <= q)%Q ->
  exists r, fold_left (fun a b => add a (of_Z b)) l (Fin q) = Fin r /\ (0 <= r)%Q.
Proof.
  revert q. induction l as [| z l IH]; intros q Hl Hq; jsimpl; [eauto |].
  inversion Hl as [| a b Hz Hl']; subst. apply IH; [exact Hl' |].
  rewrite Qred_correct.
  assert (0 <= inject_Z z)%Q
    by (change 0%Q with (inject_Z 0); rewrite <- Zle_Qle; exact Hz).
  lra.
Qed.

Lemma nonneg_div_len (x : t) (n : nat) :
  nonneg_or_nan x -> (n = 0 -> x = of_nat 0) -> nonneg_or_nan (div x (of_nat n)).
Proof.
  intros Hx Hn. destruct n as [| n].
  - rewrite (Hn eq_refl). exact I.
  - destruct x as [q | | p]; [| exact I | destruct Hx].
    unfold nonneg_or_nan in Hx. rewrite of_nat_fin, div_fin.
    assert (Hp : (0 < inject_Z (Z.of_nat (S n)))%Q).
    { change 0%Q with (inject_Z 0). rewrite <- Zlt_Qlt. lia. }
    destruct (qzero (inject_Z (Z.of_nat (S n)))) eqn:Ez.
    + apply qzero_true in Ez. lra.
    + unfold nonneg_or_nan. rewrite Qred_correct.
      apply Qle_shift_div_l; [exact Hp | lra].
Qed.

Lemma sq_nonneg (d : Q) : (0 <= d * d)%Q.
Proof.
  destruct (Qlt_le_dec d 0) as [H | H].
  - setoid_replace (d * d)%Q with ((- d) * (- d))%Q by ring.
    apply Qmult_le_0_compat; lra.
  - apply Qmult_le_0_compat; lra.
Qed.

Lemma fold_var_nonneg (l : list Z) (mean acc : t) :
  nonneg_or_nan mean -> nonneg_or_nan acc ->
  nonneg_or_nan
    (fold_left (fun a b => add a (mul (sub (of_Z b) mean) (sub (of_Z b) mean))) l acc).
Proof.
  intro Hm. revert acc. induction l as [| z l IH]; intros acc Ha; jsimpl; [exact Ha |].
  apply IH. destruct mean as [m | | p]; [| destruct acc; exact I | destruct Hm].
  destruct acc as [q | | p]; [| exact I | destruct Ha]. jsimpl.
  pose proof (sq_nonneg (Qred (inject_Z z + - m))) as Hs.
  rewrite (Qred_correct (q + _)), (Qred_correct (Qred _ * Qred _)). lra.
Qed.

Lemma getStats_nonneg (d : string) :
  nonneg_or_nan (fst (Strict.getStats d)) /\ nonneg_or_nan (snd (Strict.getStats d)).
Proof.
  unfold Strict.getStats. cbv beta zeta iota delta [fst snd].
  set (values := char_codes _).
  assert (Hmean : nonneg_or_nan
    (div (fold_left (fun a b => add a (of_Z b)) values (of_nat 0))
         (of_nat (List.length values)))).
  { apply nonneg_div_len.
    - destruct (fold_sum_nonneg values 0 (char_codes_nonneg _) (Qle_refl 0))
        as (r & Hr & Hr0).
      change (of_nat 0) with (Fin 0). rewrite Hr. exact Hr0.
    - intro Hl. apply length_zero_iff_nil in Hl. rewrite Hl. reflexivity. }
  split; [exact Hmean |].
  apply nonneg_div_len.
  - apply fold_var_nonneg; [exact Hmean | apply Qle_refl].
  - intro Hl. apply length_zero_iff_nil in Hl. rewrite Hl. reflexivity.
Qed.

(** [max(0.3, 1 - |x - y| / max(x, y))] for non-negative [x], [y]. *)
Lemma stat_sim_bound (x y : t) :
  nonneg_or_nan x -> nonneg_or_nan y ->
  nan_or_within (3 # 10) 1
    (max (lit 3 10) (sub (of_nat 1) (div (abs (sub x y)) (max x y)))).
Proof.
  intros Hx Hy. unfold lit.
  apply nw_max_c with (lo := (1 - 1)%Q); [unfold Qle; simpl; lia |].
  destruct x as [a | | p]; [| exact I | destruct Hx].
  destruct y as [b | | p]; [| exact I | destruct Hy]. jsimpl.
  change (abs (sub (Fin a) (Fin b))) with (Fin (Qabs (Qred (a + - b)))).
  change (max (Fin a) (Fin b)) with (if qlt a b then Fin b else Fin a).
  unfold qlt. destruct (Qle_bool b a) eqn:E; simpl negb; cbv iota;
    apply nw_one_minus_ratio; try apply Qabs_nonneg; try assumption;
    rewrite Qred_correct; apply Qabs_Qle_condition.
  - apply Qle_bool_iff in E. split; lra.
  - assert (a < b)%Q by (apply Qnot_le_lt; intro H; apply Qle_bool_iff in H; congruence).
    split; lra.
Qed.

Lemma strictStatisticalFingerprint_bound (d1 d2 : string) :
  nan_or_within (3 # 10) 1 (Strict.strictStatisticalFingerprint d1 d2).
Proof.
  unfold Strict.strictStatisticalFingerprint.
  destruct (getStats_nonneg d1) as [Hm1 Hv1].
  destruct (getStats_nonneg d2) as [Hm2 Hv2].
  destruct (Strict.getStats d1) as [m1 v1], (Strict.getStats d2) as [m2 v2].
  jsimpl.
  eapply nw_weaken; [| | apply nw_div_two, nw_add; apply stat_sim_bound; assumption];
    unfold Qle; simpl; lia.
Qed.

Lemma composite_bound (a b : string) : nan_or_within 0 1 (Strict.composite a b).
Proof.
  unfold Strict.composite, Strict.w_length, Strict.w_pattern,
    Strict.w_slidingWindow, Strict.w_statistical, lit.
  set (d1 := Strict.getBase64 a). set (d2 := Strict.getBase64 b).
  assert (H1 := lengthSimilarity_bound d1 d2).
  assert (H2 := analyzeImagePatterns_bound d1 d2).
  assert (H3 := strictSlidingWindow_bound d1 d2).
  assert (H4 := strictStatisticalFingerprint_bound d1 d2).
  eapply nw_weaken; [| |
    apply nw_add; [apply nw_add; [apply nw_add |] |];
    (apply nw_mul_c; [unfold Qle; simpl; lia | eassumption])];
    unfold Qle; simpl; lia.
Qed.

End ScoreBounds.

(** X1: every score of [calculateStrictVotingFaceSimilarity] is NaN or a number in [0, 1]; it is never infinite, negative or above 1. *)
Theorem strict_score_nan_or_unit (a b : string) :
  nan_or_within 0 1 (calculateStrictVotingFaceSimilarity a b).
Proof.
  unfold calculateStrictVotingFaceSimilarity.
  destruct (String.eqb a b); [apply nw_of_nat_01; lia |].
  destruct (_ || _); [apply nw_of_nat_01; lia | apply composite_bound].
Qed.


Section Symmetry.

Import JsNum.

Ltac jsimpl := cbn -[Qeq Qle Qlt Qred Qplus Qmult Qopp Qminus Qdiv Qinv Qabs inject_Z Qeq_bool Qle_bool].
Ltac jsimpl_all := cbn -[Qeq Qle Qlt Qred Qplus Qmult Qopp Qminus Qdiv Qinv Qabs inject_Z Qeq_bool Qle_bool] in *.

Lemma jeq_refl (x : t) : jeq x x.
Proof. destruct x; jsimpl; reflexivity || exact I. Qed.

Lemma qzero_wd (a b : Q) : (a == b)%Q -> qzero a = qzero b.
Proof.
  intro H. unfold qzero. destruct (Qeq_bool a 0) eqn:E1, (Qeq_bool b 0) eqn:E2;
    auto; apply Qeq_bool_iff in E1 || apply Qeq_bool_iff in E2;
    [ rewrite H in E1 | rewrite <- H in E2 ]; apply Qeq_bool_iff in E1 || apply Qeq_bool_iff in E2;
    congruence.
Qed.

Lemma qlt_wd (a b c d : Q) : (a == c)%Q -> (b == d)%Q -> qlt a b = qlt c d.
Proof.
  intros H1 H2. unfold qlt. f_equal.
  destruct (Qle_bool b a) eqn:E1, (Qle_bool d c) eqn:E2; auto;
    [ apply Qle_bool_iff in E1; rewrite H1, H2 in E1; apply Qle_bool_iff in E1
    | apply Qle_bool_iff in E2; rewrite <- H1, <- H2 in E2; apply Qle_bool_iff in E2 ];
    congruence.
Qed.

Lemma add_wd (x x' y y' : t) : jeq x x' -> jeq y y' -> jeq (add x y) (add x' y').
Proof.
  destruct x, x', y, y'; jsimpl; try tauto; intros H1 H2; subst; try reflexivity.
  - rewrite !Qred_correct, H1, H2. reflexivity.
  - destruct (Bool.eqb _ _); reflexivity || exact I.
Qed.

Lemma neg_wd (x x' : t) : jeq x x' -> jeq (neg x) (neg x').
Proof. destruct x, x'; jsimpl; try tauto; intro H; [rewrite H | subst]; reflexivity. Qed.

Lemma sub_wd (x x' y y' : t) : jeq x x' -> jeq y y' -> jeq (sub x y) (sub x' y').
Proof. intros H1 H2. apply add_wd; [exact H1 | apply neg_wd; exact H2]. Qed.

Lemma mul_wd (x x' y y' : t) : jeq x x' -> jeq y y' -> jeq (mul x y) (mul x' y').
Proof.
  destruct x as [a | | p], x' as [a' | | p'], y as [b | | q], y' as [b' | | q'];
    jsimpl; try tauto; intros H1 H2; subst; try reflexivity.
  - rewrite !Qred_correct, H1, H2. reflexivity.
  - rewrite (qzero_wd _ _ H1). unfold qpos. rewrite (qlt_wd 0 a 0 a') by (reflexivity || exact H1).
    destruct (qzero a'); reflexivity || exact I.
  - rewrite (qzero_wd _ _ H2). unfold qpos. rewrite (qlt_wd 0 b 0 b') by (reflexivity || exact H2).
    destruct (qzero b'); reflexivity || exact I.
Qed.

Lemma div_wd (x x' y y' : t) : jeq x x' -> jeq y y' -> jeq (div x y) (div x' y').
Proof.
  destruct x as [a | | p], x' as [a' | | p'], y as [b | | q], y' as [b' | | q'];
    jsimpl; try tauto; intros H1 H2; subst; try reflexivity.
  - rewrite (qzero_wd _ _ H1), (qzero_wd _ _ H2). unfold qpos.
    rewrite (qlt_wd 0 a 0 a') by (reflexivity || exact H1).
    destruct (qzero b'); [destruct (qzero a'); reflexivity || exact I |].
    cbn [jeq]. rewrite !Qred_correct, H1, H2. reflexivity.
  - rewrite (qzero_wd _ _ H2). unfold qpos.
    rewrite (qlt_wd 0 b 0 b') by (reflexivity || exact H2). apply jeq_refl.
Qed.

Lemma abs_wd (x x' : t) : jeq x x' -> jeq (abs x) (abs x').
Proof.
  destruct x, x'; jsimpl; try tauto; intro H; try reflexivity. apply Qabs_wd; exact H.
Qed.

Lemma lt_wd (x x' y y' : t) : jeq x x' -> jeq y y' -> lt x y = lt x' y'.
Proof.
  destruct x, x', y, y'; jsimpl; try tauto; intros H1 H2; subst; try reflexivity.
  apply qlt_wd; assumption.
Qed.

Lemma max_wd (x x' y y' : t) : jeq x x' -> jeq y y' -> jeq (max x y) (max x' y').
Proof.
  intros H1 H2. pose proof (lt_wd _ _ _ _ H1 H2) as Hl.
  destruct x, x', y, y'; cbn [jeq] in H1, H2; try contradiction; cbn [max];
    try exact I; rewrite Hl;
    match goal with |- jeq (if ?c then _ else _) _ => destruct c end;
    cbn [jeq]; assumption.
Qed.

Lemma add_comm_j (x y : t) : jeq (add x y) (add y x).
Proof.
  destruct x as [a | | p], y as [b | | q]; jsimpl; try exact I; try reflexivity.
  - rewrite !Qred_correct. apply Qplus_comm.
  - destruct p, q; cbn; reflexivity || exact I.
Qed.

Lemma abs_sub_comm (x y : t) : jeq (abs (sub x y)) (abs (sub y x)).
Proof.
  destruct x as [a | | p], y as [b | | q]; jsimpl; try exact I; try reflexivity.
  - rewrite !Qred_correct.
    setoid_replace (b + - a)%Q with (- (a + - b))%Q by ring. rewrite Qabs_opp.
    reflexivity.
  - destruct p, q; jsimpl; reflexivity || exact I.
Qed.

Lemma max_comm_j (x y : t) : jeq (max x y) (max y x).
Proof.
  destruct x as [a | | p], y as [b | | q]; jsimpl; try exact I.
  - unfold qlt. destruct (Qle_bool b a) eqn:E1, (Qle_bool a b) eqn:E2;
      cbn [negb jeq]; try reflexivity.
    + apply Qle_bool_iff in E1, E2. apply Qle_antisym; assumption.
    + exfalso.
      assert (N1 : ~ (b <= a)%Q) by (intro H; apply Qle_bool_iff in H; congruence).
      assert (N2 : ~ (a <= b)%Q) by (intro H; apply Qle_bool_iff in H; congruence).
      apply N2, Qlt_le_weak, Qnot_le_lt. exact N1.
  - destruct q; reflexivity.
  - destruct p; reflexivity.
  - destruct p, q; reflexivity.
Qed.

Lemma opt_ascii_eqb_comm (x y : option ascii) : opt_ascii_eqb x y = opt_ascii_eqb y x.
Proof.
  destruct x, y; simpl; try reflexivity.
  destruct (Ascii.eqb_spec a a0), (Ascii.eqb_spec a0 a); congruence.
Qed.

Lemma count_matches_comm (n : nat) (s1 s2 : string) :
  count_matches n s1 s2 = count_matches n s2 s1.
Proof.
  revert s1 s2. induction n as [| n IH]; intros s1 s2; simpl; [reflexivity |].
  rewrite opt_ascii_eqb_comm, IH. reflexivity.
Qed.

Lemma pattern_loop_comm (d1 d2 : string) (ss fuel i : nat) (tot : t) (n : nat) :
  Strict.pattern_loop d1 d2 ss fuel i tot n = Strict.pattern_loop d2 d1 ss fuel i tot n.
Proof.
  revert i tot n. induction fuel as [| fuel IH]; intros i tot n; [reflexivity |].
  cbn [Strict.pattern_loop].
  rewrite (Nat.min_comm (String.length d2) (String.length d1)).
  destruct (_ <=? _); [reflexivity |].
  rewrite IH.
  set (s1 := js_substring d1 _ _). set (s2 := js_substring d2 _ _).
  rewrite (Nat.min_comm (String.length s2) (String.length s1)),
    (count_matches_comm _ s2 s1).
  reflexivity.
Qed.

Lemma analyzeImagePatterns_comm (d1 d2 : string) :
  Strict.analyzeImagePatterns d1 d2 = Strict.analyzeImagePatterns d2 d1.
Proof.
  unfold Strict.analyzeImagePatterns.
  rewrite (Nat.min_comm (String.length d2) (String.length d1)), pattern_loop_comm.
  reflexivity.
Qed.

Lemma window_loop_comm (d1 d2 : string) (m fuel i : nat) (tot best : t) (n : nat) :
  Strict.window_loop d1 d2 m fuel i tot best n
  = Strict.window_loop d2 d1 m fuel i tot best n.
Proof.
  revert i tot best n. induction fuel as [| fuel IH]; intros i tot best n;
    [reflexivity |].
  cbn [Strict.window_loop]. destruct (_ && _); [| reflexivity].
  rewrite IH, (count_matches_comm Strict.windowSize (js_substring d2 _ _)).
  reflexivity.
Qed.

Lemma strictSlidingWindow_comm (d1 d2 : string) :
  Strict.strictSlidingWindow d1 d2 = Strict.strictSlidingWindow d2 d1.
Proof.
  unfold Strict.strictSlidingWindow.
  rewrite (Nat.min_comm (String.length d2) (String.length d1)), window_loop_comm.
  reflexivity.
Qed.

Lemma lengthSimilarity_comm (d1 d2 : string) :
  jeq (Strict.lengthSimilarity d1 d2) (Strict.lengthSimilarity d2 d1).
Proof.
  unfold Strict.lengthSimilarity.
  apply max_wd; [apply jeq_refl |]. apply sub_wd; [apply jeq_refl |].
  apply div_wd; [apply abs_sub_comm |]. apply div_wd; [apply add_comm_j | apply jeq_refl].
Qed.

Lemma strictStatisticalFingerprint_comm (d1 d2 : string) :
  jeq (Strict.strictStatisticalFingerprint d1 d2)
      (Strict.strictStatisticalFingerprint d2 d1).
Proof.
  unfold Strict.strictStatisticalFingerprint.
  destruct (Strict.getStats d1) as [m1 v1], (Strict.getStats d2) as [m2 v2].
  apply div_wd; [| apply jeq_refl]. apply add_wd;
  (apply max_wd; [apply jeq_refl |]; apply sub_wd; [apply jeq_refl |];
   apply div_wd; [apply abs_sub_comm | apply max_comm_j]).
Qed.

Lemma composite_comm (a b : string) :
  jeq (Strict.composite a b) (Strict.composite b a).
Proof.
  unfold Strict.composite.
  rewrite (analyzeImagePatterns_comm (Strict.getBase64 b)),
    (strictSlidingWindow_comm (Strict.getBase64 b)).
  repeat apply add_wd; apply mul_wd; try apply jeq_refl.
  - apply lengthSimilarity_comm.
  - apply strictStatisticalFingerprint_comm.
Qed.

End Symmetry.

(** X2: [calculateStrictVotingFaceSimilarity] is symmetric: swapping the two images gives a numerically equal score (both NaN, or the same number). *)
Theorem strict_score_symmetric (a b : string) :
  jeq (calculateStrictVotingFaceSimilarity a b) (calculateStrictVotingFaceSimilarity b a).
Proof.
  unfold calculateStrictVotingFaceSimilarity. rewrite String.eqb_sym.
  destruct (String.eqb b a); [apply jeq_refl |].
  rewrite orb_comm. destruct (_ || _); [apply jeq_refl | apply composite_comm].
Qed.

(** X6: [registerVoterService] succeeds exactly when the voter ID has the right format, the Aadhaar number is 12 digits, the face passes the quality check, the iris data has at least 10000 characters, no registered voter has the same Aadhaar number or voter ID, and no registered voter's face is flagged as a duplicate. *)
Theorem registerVoterService_accepts_iff (q : string -> FaceQuality)
    (d : VoterInput.t) (vs : list Voter) :
  reg_success (registerVoterService q d vs) = true <->
  validateVoterIdFormat (VoterInput.voterId d) = true
  /\ test_aadhaar (VoterInput.aadhaarNumber d) = true
  /\ fq_isValid (q (VoterInput.faceData d)) = true
  /\ 10000 <= String.length (VoterInput.irisData d)
  /\ (forall v, In v vs -> aadhaarNumber v <> VoterInput.aadhaarNumber d
                          /\ voterId v <> VoterInput.voterId d)
  /\ (forall v, In v vs -> flagsDuplicateReg (VoterInput.faceData d) v = false).
Proof. apply registerVoterService_success_iff. Qed.

(** X3: [verifyFaceMatch] on two identical images reports a match with similarity 1 and distance 0. *)
Theorem verifyFaceMatch_identical (a : string) :
  isMatch (verifyFaceMatch a a) = true
  /\ similarity (verifyFaceMatch a a) = JsNum.of_nat 1
  /\ distance (verifyFaceMatch a a) = JsNum.of_nat 0.
Proof.
  unfold verifyFaceMatch. rewrite strict_refl. split; [| split]; reflexivity.
Qed.

(** ** Witnesses of the further properties *)

Lemma isFaceAlreadyRegistered_report_witness :
  isDuplicate (isFaceAlreadyRegistered "face-1" [sampleVoter]) = true
  /\ exists v, existingVoter (isFaceAlreadyRegistered "face-1" [sampleVoter]) = Some v
     /\ In v [sampleVoter]
     /\ dupSimilarity (isFaceAlreadyRegistered "face-1" [sampleVoter])
        = calculateMaximumSecurityFaceSimilarity "face-1" (faceData v)
     /\ JsNum.ge (dupSimilarity (isFaceAlreadyRegistered "face-1" [sampleVoter]))
          SUSPECTED_SIMILARITY = true.
Proof.
  split; [vm_compute; reflexivity |].
  apply (proj1 (isFaceAlreadyRegistered_report "face-1" [sampleVoter])).
  vm_compute. reflexivity.
Defined.

Lemma registerVoterService_refuses_enrolled_face_witness :
  In sampleVoter [sampleVoter]
  /\ faceData sampleVoter = VoterInput.faceData
       {| VoterInput.name := "Meena"; VoterInput.aadhaarNumber := "210987654321";
          VoterInput.voterId := "B987654321"; VoterInput.address := "Main Street";
          VoterInput.faceData := "face-1"; VoterInput.irisData := sampleIris |}
  /\ reg_success (registerVoterService acceptAllQuality
       {| VoterInput.name := "Meena"; VoterInput.aadhaarNumber := "210987654321";
          VoterInput.voterId := "B987654321"; VoterInput.address := "Main Street";
          VoterInput.faceData := "face-1"; VoterInput.irisData := sampleIris |}
       [sampleVoter]) = false.
Proof.
  split; [left; reflexivity |]. split; [reflexivity |].
  apply (registerVoterService_refuses_enrolled_face acceptAllQuality _ _ sampleVoter);
    [left; reflexivity | reflexivity].
Defined.

Lemma validateVoterIdFormat_last_not_digit_witness :
  is_ascii_digit "B" = false
  /\ validateVoterIdFormat ("A12345678" ++ String "B" EmptyString) = false.
Proof.
  split; [reflexivity |].
  apply (validateVoterIdFormat_last_not_digit "A12345678" "B"). reflexivity.
Defined.

Lemma sampleVoter_roster : rosterInvariant [sampleVoter].
Proof.
  split; [split |].
  - constructor; [intros [] | constructor].
  - constructor; [intros [] | constructor].
  - constructor; [vm_compute; reflexivity | constructor].
Qed.

Lemma registerVoter_preserves_roster_witness :
  rosterInvariant (voters sampleState)
  /\ reg_success (fst (registerVoter acceptAllQuality sampleState sampleInput "101")) = true
  /\ rosterInvariant
       (voters (snd (registerVoter acceptAllQuality sampleState sampleInput "101"))).
Proof.
  split; [exact sampleVoter_roster |]. split; [vm_compute; reflexivity |].
  apply (registerVoter_preserves_roster acceptAllQuality sampleState sampleInput "101"). exact sampleVoter_roster.
Defined.

Lemma castVote_no_double_vote_witness :
  castVote sampleState "1" "100" = (true, snd (castVote sampleState "1" "100"))
  /\ fst (castVote (snd (castVote sampleState "1" "100")) "2" "100") = false.
Proof.
  split; [reflexivity |].
  apply (castVote_no_double_vote sampleState _ "1" "2" "100"). reflexivity.
Defined.

Lemma castVote_tally_witness :
  castVote sampleState "1" "100" = (true, snd (castVote sampleState "1" "100"))
  /\ totalVotes (candidates (snd (castVote sampleState "1" "100")))
     = totalVotes (candidates sampleState)
       + List.length (filter (fun x => String.eqb (candId x) "1")
                       (candidates sampleState)).
Proof.
  split; [reflexivity |].
  apply (castVote_tally sampleState _ "1" "100"). reflexivity.
Defined.

Lemma castVote_unknown_candidate_witness :
  ~ In "9" (map candId (candidates sampleState))
  /\ castVote sampleState "9" "100" = (true, snd (castVote sampleState "9" "100"))
  /\ candidates (snd (castVote sampleState "9" "100")) = candidates sampleState
  /\ exists v, In v (voters (snd (castVote sampleState "9" "100")))
     /\ id v = "100" /\ hasVoted v = true.
Proof.
  assert (Hn : ~ In "9" (map candId (candidates sampleState)))
    by (simpl; intros [H | [H | []]]; discriminate).
  split; [exact Hn |]. split; [reflexivity |].
  apply (castVote_unknown_candidate sampleState _ "9" "100"); [exact Hn | reflexivity].
Defined.

Lemma castVote_preserves_roster_witness :
  rosterInvariant (voters sampleState)
  /\ rosterInvariant (voters (snd (castVote sampleState "1" "100"))).
Proof.
  split; [exact sampleVoter_roster |].
  apply (castVote_preserves_roster sampleState "1" "100"). exact sampleVoter_roster.
Defined.

Lemma verify_vote_verify_witness :
  NoDup (map id (voters sampleState))
  /\ authVoter (verifyVoter (fun _ => true) String.eqb sampleState
                  "123456789012" "A123456789" "Ravi" "face-1") = Some sampleVoter
  /\ fst (castVote sampleState "1" (id sampleVoter)) = true
  /\ message (verifyVoter (fun _ => true) String.eqb
                (snd (castVote sampleState "1" (id sampleVoter)))
                "123456789012" "A123456789" "Ravi" "face-1") = msgAlreadyVoted.
Proof.
  assert (Hn : NoDup (map id (voters sampleState))) by (repeat constructor; intros []).
  split; [exact Hn |]. split; [vm_compute; reflexivity |].
  apply (verify_vote_verify (fun _ => true) String.eqb sampleState
           "123456789012" "A123456789" "Ravi" "face-1" "1" sampleVoter);
    [exact Hn | vm_compute; reflexivity].
Defined.

Lemma deleteVoter_preserves_roster_witness :
  rosterInvariant (voters sampleState)
  /\ rosterInvariant (voters (snd (deleteVoter sampleState "100"))).
Proof.
  split; [exact sampleVoter_roster |].
  apply (deleteVoter_preserves_roster sampleState "100"). exact sampleVoter_roster.
Defined.

Lemma updateVoter_preserves_unique_witness :
  NoDup (map id (voters sampleState))
  /\ uniqueCredentials (voters sampleState)
  /\ op_success (fst (updateVoter sampleState "100"
       {| upd_name := Some "Ravi K"; upd_aadhaarNumber := Some "999988887777";
          upd_voterId := Some "C123456789"; upd_address := Some "Hill Road";
          upd_faceData := None; upd_irisData := None; upd_hasVoted := None |})) = true
  /\ uniqueCredentials (voters (snd (updateVoter sampleState "100"
       {| upd_name := Some "Ravi K"; upd_aadhaarNumber := Some "999988887777";
          upd_voterId := Some "C123456789"; upd_address := Some "Hill Road";
          upd_faceData := None; upd_irisData := None; upd_hasVoted := None |}))).
Proof.
  assert (Hn : NoDup (map id (voters sampleState))) by (repeat constructor; intros []).
  split; [exact Hn |]. split; [exact (proj1 sampleVoter_roster) |].
  split; [reflexivity |].
  apply (updateVoter_preserves_unique sampleState "100");
    [exact Hn | exact (proj1 sampleVoter_roster)
    | intros x Hx; injection Hx as <-; discriminate
    | intros x Hx; injection Hx as <-; discriminate].
Defined.

Lemma registerVoter_then_verify_witness :
  reg_success (fst (registerVoter acceptAllQuality sampleState sampleInput "101")) = true
  /\ verifyVoter (fun _ => true) String.eqb
       (snd (registerVoter acceptAllQuality sampleState sampleInput "101"))
       "210987654321" "B987654321" "Meena" "face-2"
     = {| success := true; message := msgSuccess;
          authVoter := Some (newVoter sampleInput "101") |}.
Proof.
  split; [vm_compute; reflexivity |].
  apply (registerVoter_then_verify acceptAllQuality (fun _ => true) String.eqb
           sampleState sampleInput "101" "face-2");
    [vm_compute; reflexivity | reflexivity | reflexivity].
Defined.

Lemma registerVoter_credentials_taken_witness :
  reg_success (fst (registerVoter acceptAllQuality sampleState sampleInput "101")) = true
  /\ reg_success (fst (registerVoter acceptAllQuality
       (snd (registerVoter acceptAllQuality sampleState sampleInput "101"))
       sampleInput "102")) = false.
Proof.
  split; [vm_compute; reflexivity |].
  apply (registerVoter_credentials_taken acceptAllQuality sampleState sampleInput sampleInput "101" "102"); [vm_compute; reflexivity | left; reflexivity].
Defined.

Lemma updateCandidate_keeps_distinct_witness :
  NoDup (map candId (candidates sampleState))
  /\ NoDup (map (fun c => candidateKey (candName c)) (candidates sampleState))
  /\ NoDup (map symbol (candidates sampleState))
  /\ op_success (fst (updateCandidate sampleState "1"
       {| CandidateInput.name := " Jon Smith "; CandidateInput.party := "Green Party";
          CandidateInput.symbol := "G" |})) = true
  /\ NoDup (map (fun c => candidateKey (candName c))
       (candidates (snd (updateCandidate sampleState "1"
          {| CandidateInput.name := " Jon Smith "; CandidateInput.party := "Green Party";
             CandidateInput.symbol := "G" |}))))
  /\ NoDup (map symbol (candidates (snd (updateCandidate sampleState "1"
          {| CandidateInput.name := " Jon Smith "; CandidateInput.party := "Green Party";
             CandidateInput.symbol := "G" |})))).
Proof.
  assert (H1 : NoDup (map candId (candidates sampleState)))
    by (vm_compute; repeat (constructor; [simpl; intuition discriminate |]); constructor).
  assert (H2 : NoDup (map (fun c => candidateKey (candName c)) (candidates sampleState)))
    by (vm_compute; repeat (constructor; [simpl; intuition discriminate |]); constructor).
  assert (H3 : NoDup (map symbol (candidates sampleState)))
    by (vm_compute; repeat (constructor; [simpl; intuition discriminate |]); constructor).
  split; [exact H1 |]. split; [exact H2 |]. split; [exact H3 |].
  split; [vm_compute; reflexivity |].
  apply (updateCandidate_keeps_distinct sampleState "1"); assumption.
Defined.
